(** * iudex-go: configuration defaulting, header assembly and SDK set-up

    A shallow embedding of [main.go].  The program wires an OpenTelemetry
    SDK: it fills a configuration record from the process environment,
    builds resource attributes and an authentication header map, and calls
    the SDK constructors in a fixed order, tearing down what it started
    when one of them fails.

    The SDK itself is a dependency of the program.  It appears here as an
    interface ([SDK]) whose operations may fail and may change the SDK's
    own state; every theorem holds for all implementations of it. *)

From stdpp Require Import base option list strings gmap fin_maps.

Open Scope string_scope.

(** ** Go values *)

(** Go error values.  [errorString] is what [fmt.Errorf] builds from a
    format without [%w], [wrapError] what it builds with one [%w]
    (the text before the verb and the wrapped error), and [joinError]
    what [errors.Join] builds.  A value of interface type [error] is an
    [option error]; [None] is [nil]. *)
#[warnings="-register-all"]
Inductive error : Type :=
| errorString (s : string)
| wrapError (msg : string) (err : error)
| joinError (errs : list error).

(** [errors.Join]: drops the nil arguments; [nil] when none is left,
    otherwise one error holding the others in order. *)
Definition errors_Join (errs : list (option error)) : option error :=
  match omap id errs with
  | [] => None
  | es => Some (joinError es)
  end.

(** A Go result pair [(T, error)] of which callers read the value only
    when the error is nil. *)
Inductive result (A : Type) : Type :=
| Ok (a : A)
| Err (e : error).
Arguments Ok {A} a.
Arguments Err {A} e.

(** Go's built-in [append] with one element. *)
Definition append {A : Type} (s : list A) (x : A) : list A := (s ++ [x])%list.

(** The process environment, as [os.LookupEnv] sees it. *)
Abbreviation Environ := (gmap string string).

(** Header maps, [map[string]string]. *)
Abbreviation HeaderMap := (gmap string string).

(** ** Configuration *)

(** [InstrumentationConfig]: every field is a pointer, [None] is [nil]. *)
Record InstrumentationConfig : Type := mkConfig {
  BaseURL : option string;
  APIKey : option string;
  PublicAPIKey : option string;
  Headers : option HeaderMap;
  ServiceName : option string;
  InstanceID : option string;
  Env : option string;
  GitCommit : option string;
  GitHubURL : option string;
}.

(** [getEnv]: the variable's value when it exists, else the default. *)
Definition getEnv (env : Environ) (key : string) (defaultValue : option string)
  : option string :=
  match env !! key with
  | Some value => Some value
  | None => defaultValue
  end.

Definition stringPtr (s : string) : option string := Some s.

(** [getDefaultConfig].  The composite literal leaves [Headers] and
    [GitHubURL] out, so they are nil. *)
Definition getDefaultConfig (env : Environ) : InstrumentationConfig :=
  let defaultBaseURL := getEnv env "BASE_URL" None in
  let defaultBaseURL :=
    match defaultBaseURL with
    | None => stringPtr "api.iudex.ai"
    | Some _ => defaultBaseURL
    end in
  let defaultAPIKey := getEnv env "API_KEY" None in
  let defaultPublicAPIKey := getEnv env "PUBLIC_API_KEY" None in
  let defaultServiceName := getEnv env "SERVICE_NAME" None in
  let defaultServiceName :=
    match defaultServiceName with
    | None => stringPtr "default-service"
    | Some _ => defaultServiceName
    end in
  let defaultInstanceID := getEnv env "INSTANCE_ID" None in
  let defaultEnv := getEnv env "ENVIRONMENT" None in
  let defaultEnv :=
    match defaultEnv with
    | None => stringPtr "development"
    | Some _ => defaultEnv
    end in
  let defaultGitCommit := getEnv env "GIT_COMMIT" None in
  {| BaseURL := defaultBaseURL;
     APIKey := defaultAPIKey;
     PublicAPIKey := defaultPublicAPIKey;
     Headers := None;
     ServiceName := defaultServiceName;
     InstanceID := defaultInstanceID;
     Env := defaultEnv;
     GitCommit := defaultGitCommit;
     GitHubURL := None |}.

(** The defaulting block at the head of [setupOTelSDK] (the five
    [if config.X == nil { config.X = defaults.X }] statements, in the
    order of the source).  [config] is passed by value, so each
    assignment yields a new record. *)
Definition setServiceName (c : InstrumentationConfig) (v : option string) :=
  mkConfig (BaseURL c) (APIKey c) (PublicAPIKey c) (Headers c)
           v (InstanceID c) (Env c) (GitCommit c) (GitHubURL c).
Definition setInstanceID (c : InstrumentationConfig) (v : option string) :=
  mkConfig (BaseURL c) (APIKey c) (PublicAPIKey c) (Headers c)
           (ServiceName c) v (Env c) (GitCommit c) (GitHubURL c).
Definition setEnv (c : InstrumentationConfig) (v : option string) :=
  mkConfig (BaseURL c) (APIKey c) (PublicAPIKey c) (Headers c)
           (ServiceName c) (InstanceID c) v (GitCommit c) (GitHubURL c).
Definition setGitCommit (c : InstrumentationConfig) (v : option string) :=
  mkConfig (BaseURL c) (APIKey c) (PublicAPIKey c) (Headers c)
           (ServiceName c) (InstanceID c) (Env c) v (GitHubURL c).
Definition setBaseURL (c : InstrumentationConfig) (v : option string) :=
  mkConfig v (APIKey c) (PublicAPIKey c) (Headers c)
           (ServiceName c) (InstanceID c) (Env c) (GitCommit c) (GitHubURL c).
Definition setHeaders (c : InstrumentationConfig) (v : option HeaderMap) :=
  mkConfig (BaseURL c) (APIKey c) (PublicAPIKey c) v
           (ServiceName c) (InstanceID c) (Env c) (GitCommit c) (GitHubURL c).

Definition applyDefaults (env : Environ) (config : InstrumentationConfig)
  : InstrumentationConfig :=
  let defaults := getDefaultConfig env in
  let config :=
    if ServiceName config is None
    then setServiceName config (ServiceName defaults) else config in
  let config :=
    if InstanceID config is None
    then setInstanceID config (InstanceID defaults) else config in
  let config :=
    if Env config is None
    then setEnv config (Env defaults) else config in
  let config :=
    if GitCommit config is None
    then setGitCommit config (GitCommit defaults) else config in
  let config :=
    if BaseURL config is None
    then setBaseURL config (BaseURL defaults) else config in
  config.

(** ** Headers *)

(** [newHeaders]: fails when both keys are nil; otherwise a fresh map
    with the public key's header, or else the private key's. *)
Definition newHeaders (config : InstrumentationConfig) : result HeaderMap :=
  match APIKey config, PublicAPIKey config with
  | None, None =>
      Err (errorString
        "PUBLIC_WRITE_ONLY_IUDEX_API_KEY environment variable is missing or empty")
  | _, _ =>
      let headers : HeaderMap := ∅ in
      let headers :=
        match PublicAPIKey config with
        | Some pk => <["x-write-only-api-key" := pk]> headers
        | None =>
            match APIKey config with
            | Some k => <["x-api-key" := k]> headers
            | None => headers
            end
        end in
      Ok headers
  end.

(** ** The SDK *)

(** [attribute.String key value]. *)
Abbreviation KeyValue := (string * string)%type.

(** The propagators the program composes. *)
#[warnings="-register-all"]
Inductive TextMapPropagator : Type :=
| TraceContext
| Baggage
| CompositeTextMapPropagator (ps : list TextMapPropagator).

(** The operations of the OpenTelemetry SDK that [main.go] calls.  The
    SDK's types are opaque to the program; [World] is whatever the SDK
    keeps or consults on its own (connections, background workers, and
    the process environment as the SDK itself reads it, such as the
    [OTEL_*] variables), which every operation may read and change.  A constructor that returns [(T, error)] in Go
    returns a [result] here. *)
Record SDK : Type := {
  World : Type;
  Resource : Type;
  TraceExporter : Type;
  LogExporter : Type;
  LogProcessor : Type;
  TracerProvider : Type;
  LoggerProvider : Type;
  (* resource.New(ctx, resource.WithAttributes(attrs...)) *)
  resource_New : list KeyValue -> World -> result Resource * World;
  (* otlptracehttp.New(ctx, WithEndpoint(url), WithHeaders(h)) *)
  otlptracehttp_New : string -> HeaderMap -> World -> result TraceExporter * World;
  (* trace.NewTracerProvider(WithBatcher(e, WithBatchTimeout(d)), WithResource(r)) *)
  trace_NewTracerProvider : TraceExporter -> Z -> Resource -> World -> TracerProvider * World;
  (* otlploghttp.New(ctx, WithEndpoint(url), WithHeaders(h)) *)
  otlploghttp_New : string -> HeaderMap -> World -> result LogExporter * World;
  (* log.NewBatchProcessor(e) *)
  log_NewBatchProcessor : LogExporter -> World -> LogProcessor * World;
  (* log.NewLoggerProvider(WithResource(r), WithProcessor(p)) *)
  log_NewLoggerProvider : Resource -> LogProcessor -> World -> LoggerProvider * World;
  (* tracerProvider.Shutdown(ctx) *)
  TracerProvider_Shutdown : TracerProvider -> World -> option error * World;
  (* loggerProvider.Shutdown(ctx) *)
  LoggerProvider_Shutdown : LoggerProvider -> World -> option error * World;
}.

(** [time.Second], a [time.Duration] in nanoseconds. *)
Definition time_Second : Z := 1000000000.

Section Setup.

Context (sdk : SDK).

(** The clean-up functions [setupOTelSDK] registers are the method values
    [tracerProvider.Shutdown] and [loggerProvider.Shutdown]. *)
Inductive Cleanup : Type :=
| TracerProviderShutdown (tp : TracerProvider sdk)
| LoggerProviderShutdown (lp : LoggerProvider sdk).

(** What the program did to the SDK, oldest first.  The log is ghost
    state: the program never reads it. *)
Inductive Call : Type :=
| CallSetTextMapPropagator (p : TextMapPropagator)
| CallResourceNew (attrs : list KeyValue)
| CallTraceExporterNew (endpoint : string) (headers : HeaderMap)
| CallNewTracerProvider (e : TraceExporter sdk) (batchTimeout : Z) (r : Resource sdk)
| CallSetTracerProvider (tp : TracerProvider sdk)
| CallLogExporterNew (endpoint : string) (headers : HeaderMap)
| CallNewBatchProcessor (e : LogExporter sdk)
| CallNewLoggerProvider (r : Resource sdk) (p : LogProcessor sdk)
| CallSetLoggerProvider (lp : LoggerProvider sdk)
| CallShutdown (fn : Cleanup).

(** The state [setupOTelSDK] and its [shutdown] closure work on: the SDK's
    state, the three process-global registrations ([otel]'s propagator and
    tracer provider, [global]'s logger provider), the variable
    [shutdownFuncs] that the closure captures, and the call log. *)
Record State : Type := mkState {
  world : World sdk;
  textMapPropagator : option TextMapPropagator;
  tracerProvider : option (TracerProvider sdk);
  loggerProvider : option (LoggerProvider sdk);
  shutdownFuncs : list Cleanup;
  calls : list Call;
}.

(** A state-passing computation. *)
Definition M (A : Type) : Type := State -> A * State.

Definition ret {A} (a : A) : M A := fun s => (a, s).

Definition bind {A B} (m : M A) (k : A -> M B) : M B :=
  fun s => let '(a, s') := m s in k a s'.

Notation "x <- c1 ;; c2" := (bind c1 (fun x => c2))
  (at level 100, c1 at next level, right associativity).
Notation "c1 ;; c2" := (bind c1 (fun _ => c2))
  (at level 100, right associativity).

(** Run an SDK operation on the SDK's state, logging the call. *)
Definition sdkCall {A} (c : Call) (op : World sdk -> A * World sdk) : M A :=
  fun s =>
    let '(a, w) := op (world s) in
    (a, mkState w (textMapPropagator s) (tracerProvider s) (loggerProvider s)
                (shutdownFuncs s) (append (calls s) c)).

Definition otel_SetTextMapPropagator (p : TextMapPropagator) : M unit :=
  fun s =>
    (tt, mkState (world s) (Some p) (tracerProvider s) (loggerProvider s)
                 (shutdownFuncs s) (append (calls s) (CallSetTextMapPropagator p))).

Definition otel_SetTracerProvider (tp : TracerProvider sdk) : M unit :=
  fun s =>
    (tt, mkState (world s) (textMapPropagator s) (Some tp) (loggerProvider s)
                 (shutdownFuncs s) (append (calls s) (CallSetTracerProvider tp))).

Definition global_SetLoggerProvider (lp : LoggerProvider sdk) : M unit :=
  fun s =>
    (tt, mkState (world s) (textMapPropagator s) (tracerProvider s) (Some lp)
                 (shutdownFuncs s) (append (calls s) (CallSetLoggerProvider lp))).

(** Assignment to the captured variable [shutdownFuncs]. *)
Definition setShutdownFuncs (fns : list Cleanup) : M unit :=
  fun s =>
    (tt, mkState (world s) (textMapPropagator s) (tracerProvider s)
                 (loggerProvider s) fns (calls s)).

Definition getShutdownFuncs : M (list Cleanup) :=
  fun s => (shutdownFuncs s, s).

(** Calling a registered clean-up function. *)
Definition callCleanup (fn : Cleanup) : M (option error) :=
  match fn with
  | TracerProviderShutdown tp =>
      sdkCall (CallShutdown fn) (TracerProvider_Shutdown sdk tp)
  | LoggerProviderShutdown lp =>
      sdkCall (CallShutdown fn) (LoggerProvider_Shutdown sdk lp)
  end.

(** ** The constructors *)

Definition newPropagator : TextMapPropagator :=
  CompositeTextMapPropagator [TraceContext; Baggage].

Definition newResource (config : InstrumentationConfig) : M (result (Resource sdk)) :=
  let attributes : list KeyValue := [] in
  let attributes :=
    if ServiceName config is Some v
    then append attributes ("service.name", v) else attributes in
  let attributes :=
    if InstanceID config is Some v
    then append attributes ("service.instance.id", v) else attributes in
  let attributes :=
    if Env config is Some v
    then append attributes ("env", v) else attributes in
  let attributes :=
    if GitCommit config is Some v
    then append attributes ("git.commit", v) else attributes in
  let attributes :=
    if GitHubURL config is Some v
    then append attributes ("github.url", v) else attributes in
  r <- sdkCall (CallResourceNew attributes) (resource_New sdk attributes) ;;
  match r with
  | Err err => ret (Err (wrapError "failed to create resource: " err))
  | Ok res => ret (Ok res)
  end.

Definition newTraceProvider (config : InstrumentationConfig)
    (res : Resource sdk) (headers : HeaderMap) : M (result (TracerProvider sdk)) :=
  let baseURL := "api.iudex.ai" in
  let baseURL := if BaseURL config is Some u then u else baseURL in
  r <- sdkCall (CallTraceExporterNew baseURL headers)
               (otlptracehttp_New sdk baseURL headers) ;;
  match r with
  | Err err => ret (Err err)
  | Ok traceExporter =>
      traceProvider <-
        sdkCall (CallNewTracerProvider traceExporter time_Second res)
                (trace_NewTracerProvider sdk traceExporter time_Second res) ;;
      ret (Ok traceProvider)
  end.

Definition newLoggerProvider (config : InstrumentationConfig)
    (res : Resource sdk) (headers : HeaderMap) : M (result (LoggerProvider sdk)) :=
  let baseURL := "api.iudex.ai" in
  let baseURL := if BaseURL config is Some u then u else baseURL in
  r <- sdkCall (CallLogExporterNew baseURL headers)
               (otlploghttp_New sdk baseURL headers) ;;
  match r with
  | Err err => ret (Err err)
  | Ok logExporter =>
      processor <-
        sdkCall (CallNewBatchProcessor logExporter)
                (log_NewBatchProcessor sdk logExporter) ;;
      loggerProvider <-
        sdkCall (CallNewLoggerProvider res processor)
                (log_NewLoggerProvider sdk res processor) ;;
      ret (Ok loggerProvider)
  end.

(** ** Set-up and shutdown *)

(** The loop of the [shutdown] closure: call each function in order and
    join its error onto the errors so far. *)
Fixpoint runShutdownFuncs (fns : list Cleanup) (err : option error)
  : M (option error) :=
  match fns with
  | [] => ret err
  | fn :: rest =>
      e <- callCleanup fn ;;
      runShutdownFuncs rest (errors_Join [err; e])
  end.

(** The closure [shutdown]: runs the registered functions, then sets
    [shutdownFuncs] to nil. *)
Definition shutdown : M (option error) :=
  fns <- getShutdownFuncs ;;
  err <- runShutdownFuncs fns None ;;
  setShutdownFuncs [] ;;
  ret err.

(** The closure [handleErr]: assigns the named result [err]; every call
    of it is followed by [return], so its value is what set-up returns. *)
Definition handleErr (inErr : error) : M (option error) :=
  e <- shutdown ;;
  ret (errors_Join [Some inErr; e]).

(** [setupOTelSDK].  The result is the named result [err]; the other
    result, the closure, is [shutdown] run on the state this leaves. *)
Definition setupOTelSDK (env : Environ) (config : InstrumentationConfig)
  : M (option error) :=
  setShutdownFuncs [] ;;
  let config := applyDefaults env config in
  let prop := newPropagator in
  otel_SetTextMapPropagator prop ;;
  r <- newResource config ;;
  match r with
  | Err err => handleErr err
  | Ok res =>
      match newHeaders config with
      | Err err => handleErr err
      | Ok headers =>
          r <- newTraceProvider config res headers ;;
          match r with
          | Err err => handleErr err
          | Ok tracerProvider =>
              fns <- getShutdownFuncs ;;
              setShutdownFuncs (append fns (TracerProviderShutdown tracerProvider)) ;;
              otel_SetTracerProvider tracerProvider ;;
              r <- newLoggerProvider config res headers ;;
              match r with
              | Err err => handleErr err
              | Ok loggerProvider =>
                  fns <- getShutdownFuncs ;;
                  setShutdownFuncs (append fns (LoggerProviderShutdown loggerProvider)) ;;
                  global_SetLoggerProvider loggerProvider ;;
                  ret None
              end
          end
      end
  end.

(** ** Vocabulary for the statements about set-up *)

(** Calls that register a provider as a process global. *)
Definition registersProvider (c : Call) : bool :=
  match c with
  | CallSetTracerProvider _ | CallSetLoggerProvider _ => true
  | _ => false
  end.

(** [Frame s s']: from [s] to [s'] the SDK was called, but no global
    registration and no program variable changed. *)
Record Frame (s s' : State) : Prop := mkFrame {
  frame_propagator : textMapPropagator s' = textMapPropagator s;
  frame_tracer : tracerProvider s' = tracerProvider s;
  frame_logger : loggerProvider s' = loggerProvider s;
  frame_funcs : shutdownFuncs s' = shutdownFuncs s;
  frame_calls :
    ∃ new, calls s' = (calls s ++ new)%list
           ∧ Forall (λ c, registersProvider c = false) new;
}.

(** The state in which the first constructor runs: [shutdownFuncs]
    declared, the propagator registered. *)
Definition setupStart (s : State) : State :=
  snd (otel_SetTextMapPropagator newPropagator (snd (setShutdownFuncs [] s))).

(** The state once a started tracer provider's [Shutdown] is appended to
    [shutdownFuncs] and the provider is registered. *)
Definition tracerStarted (tp : TracerProvider sdk) (s : State) : State :=
  snd (otel_SetTracerProvider tp
         (snd (setShutdownFuncs
                 (append (shutdownFuncs s) (TracerProviderShutdown tp)) s))).

(** The four places where a constructor of [setupOTelSDK] can fail.
    [ConstructorFails env config s inErr started sf]: run from [s], set-up
    reaches [sf], where a constructor has just returned the error [inErr];
    [started] lists the clean-ups of the providers started until then. *)
Inductive ConstructorFails (env : Environ) (config : InstrumentationConfig)
    (s : State) : error → list Cleanup → State → Prop :=
| ResourceFails err s1 :
    newResource (applyDefaults env config) (setupStart s) = (Err err, s1) →
    ConstructorFails env config s err [] s1
| HeadersFail res err s1 :
    newResource (applyDefaults env config) (setupStart s) = (Ok res, s1) →
    newHeaders (applyDefaults env config) = Err err →
    ConstructorFails env config s err [] s1
| TraceProviderFails res headers err s1 s2 :
    newResource (applyDefaults env config) (setupStart s) = (Ok res, s1) →
    newHeaders (applyDefaults env config) = Ok headers →
    newTraceProvider (applyDefaults env config) res headers s1 = (Err err, s2) →
    ConstructorFails env config s err [] s2
| LoggerProviderFails res headers tp err s1 s2 s3 :
    newResource (applyDefaults env config) (setupStart s) = (Ok res, s1) →
    newHeaders (applyDefaults env config) = Ok headers →
    newTraceProvider (applyDefaults env config) res headers s1 = (Ok tp, s2) →
    newLoggerProvider (applyDefaults env config) res headers (tracerStarted tp s2)
      = (Err err, s3) →
    ConstructorFails env config s err [TracerProviderShutdown tp] s3.

End Setup.

Arguments ret {sdk A} a.
Arguments bind {sdk A B} m k.
Arguments CallShutdown {sdk} fn.
Arguments TracerProviderShutdown {sdk} tp.
Arguments LoggerProviderShutdown {sdk} lp.

(** ** Names used in the statements *)

(** A configuration with every field nil, [InstrumentationConfig{}]. *)
Definition zeroConfig : InstrumentationConfig :=
  mkConfig None None None None None None None None None.

(** First non-nil of three pointers. *)
Definition firstNonNil (a b c : option string) : option string :=
  match a with
  | Some _ => a
  | None => match b with Some _ => b | None => c end
  end.

(** The environment variables the specification lists as consumed. *)
Definition consumedVars : list string :=
  ["BASE_URL"; "API_KEY"; "PUBLIC_API_KEY"; "SERVICE_NAME"; "INSTANCE_ID";
   "ENVIRONMENT"; "GIT_COMMIT"].

(** The fields of [InstrumentationConfig], and whether one is nil. *)
Inductive Field : Type :=
| FBaseURL | FAPIKey | FPublicAPIKey | FHeaders
| FServiceName | FInstanceID | FEnv | FGitCommit | FGitHubURL.

Definition isNil (f : Field) (c : InstrumentationConfig) : bool :=
  match f with
  | FBaseURL => bool_decide (BaseURL c = None)
  | FAPIKey => bool_decide (APIKey c = None)
  | FPublicAPIKey => bool_decide (PublicAPIKey c = None)
  | FHeaders => bool_decide (Headers c = None)
  | FServiceName => bool_decide (ServiceName c = None)
  | FInstanceID => bool_decide (InstanceID c = None)
  | FEnv => bool_decide (Env c = None)
  | FGitCommit => bool_decide (GitCommit c = None)
  | FGitHubURL => bool_decide (GitHubURL c = None)
  end.

(** "Field [f] falls back to an environment-variable lookup": some
    variable, whenever it is set, fills the field when the caller left
    it nil. *)
Definition fallsBackToEnv (f : Field) : Prop :=
  ∃ key : string, ∀ (env : Environ) (config : InstrumentationConfig),
    isNil f config = true → is_Some (env !! key) →
    isNil f (applyDefaults env config) = false.

(** "The header map has exactly two entries." *)
Definition twoEntryHeaders (config : InstrumentationConfig) : Prop :=
  ∀ headers, newHeaders config = Ok headers → size headers = 2.

(** An SDK for the examples.  Its state counts the operations run; its
    values record what they were built from.  [logsUp] says whether the
    log exporter can be built, [flushOk] whether shutting a tracer
    provider down succeeds. *)
Definition exampleSDK (logsUp flushOk : bool) : SDK := {|
  World := nat;
  Resource := list KeyValue;
  TraceExporter := string * HeaderMap;
  LogExporter := string * HeaderMap;
  LogProcessor := string * HeaderMap;
  TracerProvider := (string * HeaderMap) * Z * list KeyValue;
  LoggerProvider := list KeyValue * (string * HeaderMap);
  resource_New := λ attrs w, (Ok attrs, S w);
  otlptracehttp_New := λ url h w, (Ok (url, h), S w);
  trace_NewTracerProvider := λ e d r w, ((e, d, r), S w);
  otlploghttp_New := λ url h w,
    (if logsUp then Ok (url, h) else Err (errorString "log exporter: no route to host"),
     S w);
  log_NewBatchProcessor := λ e w, (e, S w);
  log_NewLoggerProvider := λ r p w, ((r, p), S w);
  TracerProvider_Shutdown := λ _ w,
    (if flushOk then None else Some (errorString "flush: deadline exceeded"), S w);
  LoggerProvider_Shutdown := λ _ w, (None, S w);
|}.

(** A fresh process: nothing registered, nothing called. *)
Definition freshState (sdk : SDK) (w : World sdk) : State sdk :=
  mkState sdk w None None None [] [].

(** A configuration that sets the write-only key only. *)
Definition publicKeyConfig : InstrumentationConfig :=
  mkConfig None None (Some "pk_live") None None None None None None.

(** ** The logger factories *)

Section Loggers.

Context (sdk : SDK).

(** The logging bridges the factories call: [otelslog.NewLogger],
    [otelzap.NewCore] and [zap.New].  They receive the provider as the
    interface value [global.GetLoggerProvider] returns; [None] stands
    for the SDK's own default provider, which is what that function
    returns while no provider has been registered. *)
Record Bridges : Type := {
  SlogLogger : Type;
  ZapCore : Type;
  ZapLogger : Type;
  (* otelslog.NewLogger(name, otelslog.WithLoggerProvider(provider)) *)
  otelslog_NewLogger : string → option (LoggerProvider sdk) → SlogLogger;
  (* otelzap.NewCore(name, otelzap.WithLoggerProvider(provider)) *)
  otelzap_NewCore : string → option (LoggerProvider sdk) → ZapCore;
  (* zap.New(core) *)
  zap_New : ZapCore → ZapLogger;
}.

Context (br : Bridges).

(** [getLoggerProvider]: reads the global registration. *)
Definition getLoggerProvider : M sdk (option (LoggerProvider sdk)) :=
  fun s => (loggerProvider sdk s, s).

Definition newSlogLogger (name : string) : M sdk (SlogLogger br) :=
  bind getLoggerProvider (fun provider =>
  ret (otelslog_NewLogger br name provider)).

Definition newZapLogger (name : string) : M sdk (ZapLogger br) :=
  bind getLoggerProvider (fun provider =>
  ret (zap_New br (otelzap_NewCore br name provider))).


End Loggers.

(** An SDK whose [resource.New] always fails. *)
Definition noResourceSDK : SDK := {|
  World := nat;
  Resource := list KeyValue;
  TraceExporter := string * HeaderMap;
  LogExporter := string * HeaderMap;
  LogProcessor := string * HeaderMap;
  TracerProvider := (string * HeaderMap) * Z * list KeyValue;
  LoggerProvider := list KeyValue * (string * HeaderMap);
  resource_New := λ attrs w, (Err (errorString "resource: detector failed"), S w);
  otlptracehttp_New := λ url h w, (Ok (url, h), S w);
  trace_NewTracerProvider := λ e d r w, ((e, d, r), S w);
  otlploghttp_New := λ url h w, (Ok (url, h), S w);
  log_NewBatchProcessor := λ e w, (e, S w);
  log_NewLoggerProvider := λ r p w, ((r, p), S w);
  TracerProvider_Shutdown := λ _ w, (None, S w);
  LoggerProvider_Shutdown := λ _ w, (None, S w);
|}.

(** An SDK whose trace exporter cannot be built. *)
Definition noTraceExporterSDK : SDK := {|
  World := nat;
  Resource := list KeyValue;
  TraceExporter := string * HeaderMap;
  LogExporter := string * HeaderMap;
  LogProcessor := string * HeaderMap;
  TracerProvider := (string * HeaderMap) * Z * list KeyValue;
  LoggerProvider := list KeyValue * (string * HeaderMap);
  resource_New := λ attrs w, (Ok attrs, S w);
  otlptracehttp_New := λ url h w,
    (Err (errorString "trace exporter: invalid endpoint"), S w);
  trace_NewTracerProvider := λ e d r w, ((e, d, r), S w);
  otlploghttp_New := λ url h w, (Ok (url, h), S w);
  log_NewBatchProcessor := λ e w, (e, S w);
  log_NewLoggerProvider := λ r p w, ((r, p), S w);
  TracerProvider_Shutdown := λ _ w, (None, S w);
  LoggerProvider_Shutdown := λ _ w, (None, S w);
|}.

(** Bridges for the examples: a logger is its name and its provider. *)
Definition exampleBridges (sdk : SDK) : Bridges sdk := {|
  SlogLogger := string * option (LoggerProvider sdk);
  ZapCore := string * option (LoggerProvider sdk);
  ZapLogger := string * option (LoggerProvider sdk);
  otelslog_NewLogger := λ name provider, (name, provider);
  otelzap_NewCore := λ name provider, (name, provider);
  zap_New := λ core, core;
|}.

(** A configuration that sets both keys. *)
Definition bothKeysConfig : InstrumentationConfig :=
  mkConfig None (Some "sk_live") (Some "pk_live") None None None None None None.

(** ** Defaulting *)

Lemma getEnv_lookup (env : Environ) key :
  getEnv env key None = env !! key.
Proof. unfold getEnv. by destruct (env !! key). Qed.

Lemma getEnv_firstNonNil (env : Environ) key dflt :
  match getEnv env key None with
  | None => stringPtr dflt
  | Some v => Some v
  end = firstNonNil None (env !! key) (Some dflt).
Proof. rewrite getEnv_lookup. by destruct (env !! key). Qed.

Lemma applyDefaults_fields env config :
  let d := getDefaultConfig env in
  applyDefaults env config =
    mkConfig (if BaseURL config is None then BaseURL d else BaseURL config)
             (APIKey config) (PublicAPIKey config) (Headers config)
             (if ServiceName config is None then ServiceName d else ServiceName config)
             (if InstanceID config is None then InstanceID d else InstanceID config)
             (if Env config is None then Env d else Env config)
             (if GitCommit config is None then GitCommit d else GitCommit config)
             (GitHubURL config).
Proof.
  destruct config as [bu ak pk hd sn ii en gc gh].
  unfold applyDefaults; simpl.
  destruct sn, ii, en, gc, bu; reflexivity.
Qed.

Lemma applyDefaults_setHeaders env config h :
  applyDefaults env (setHeaders config h) = setHeaders (applyDefaults env config) h.
Proof. rewrite !applyDefaults_fields. reflexivity. Qed.

Lemma applyDefaults_APIKey env config :
  APIKey (applyDefaults env config) = APIKey config.
Proof. by rewrite applyDefaults_fields. Qed.

Lemma applyDefaults_PublicAPIKey env config :
  PublicAPIKey (applyDefaults env config) = PublicAPIKey config.
Proof. by rewrite applyDefaults_fields. Qed.

(** ** Headers *)

Lemma newHeaders_public config pk :
  PublicAPIKey config = Some pk →
  newHeaders config = Ok {["x-write-only-api-key" := pk]}.
Proof.
  intros Hpk. unfold newHeaders. rewrite Hpk.
  destruct (APIKey config); by rewrite insert_empty.
Qed.

Lemma newHeaders_private config k :
  PublicAPIKey config = None → APIKey config = Some k →
  newHeaders config = Ok {["x-api-key" := k]}.
Proof.
  intros Hpk Hk. unfold newHeaders. rewrite Hpk, Hk.
  by rewrite insert_empty.
Qed.

Lemma newHeaders_no_key config :
  APIKey config = None → PublicAPIKey config = None →
  ∃ err, newHeaders config = Err err.
Proof. intros Hk Hpk. unfold newHeaders. rewrite Hk, Hpk. eauto. Qed.

Lemma newHeaders_setHeaders config h :
  newHeaders (setHeaders config h) = newHeaders config.
Proof. reflexivity. Qed.

(** C4: with a key present, a non-nil [PublicAPIKey] is sent as
    [x-write-only-api-key]; when it is nil and [APIKey] is not, [APIKey]
    is sent as [x-api-key]. *)
Theorem newHeaders_header_name (config : InstrumentationConfig) :
  is_Some (APIKey config) ∨ is_Some (PublicAPIKey config) →
  ∃ headers : HeaderMap,
    newHeaders config = Ok headers
    ∧ (∀ pk, PublicAPIKey config = Some pk →
             headers !! "x-write-only-api-key" = Some pk)
    ∧ (∀ k, PublicAPIKey config = None → APIKey config = Some k →
            headers !! "x-api-key" = Some k).
Proof.
  intros Hkey.
  destruct (PublicAPIKey config) as [pk|] eqn:Hpk.
  - eexists. split; [by apply newHeaders_public|]. split.
    + intros pk' [= <-]. apply lookup_singleton_eq.
    + intros k [=].
  - destruct Hkey as [[k Hk]|[pk Hpk']]; [|discriminate].
    eexists. split; [by apply newHeaders_private|]. split.
    + intros pk [=].
    + intros k' _ Hk'. rewrite Hk in Hk'. injection Hk' as <-.
      apply lookup_singleton_eq.
Qed.

Lemma newHeaders_header_name_witness :
  ∃ headers : HeaderMap,
    newHeaders publicKeyConfig = Ok headers
    ∧ (∀ pk, PublicAPIKey publicKeyConfig = Some pk →
             headers !! "x-write-only-api-key" = Some pk)
    ∧ (∀ k, PublicAPIKey publicKeyConfig = None →
            APIKey publicKeyConfig = Some k →
            headers !! "x-api-key" = Some k).
Proof.
  apply (newHeaders_header_name publicKeyConfig).
  right. exists "pk_live". reflexivity.
Defined.

(** C5, as claimed, fails: with only the write-only key set the map has
    one entry, not two. *)
Lemma newHeaders_two_entries_counterexample :
  (is_Some (APIKey publicKeyConfig) ∨ is_Some (PublicAPIKey publicKeyConfig))
  ∧ ¬ twoEntryHeaders publicKeyConfig.
Proof.
  split.
  - right. by exists "pk_live".
  - intros H. specialize (H _ (newHeaders_public publicKeyConfig "pk_live" eq_refl)).
    rewrite map_size_singleton in H. discriminate.
Qed.

(** C5, amended: with a key present, the header map [newHeaders] builds
    has exactly one entry: [x-write-only-api-key] with the value of
    [PublicAPIKey] when that is non-nil, otherwise [x-api-key] with the
    value of [APIKey]. *)
Theorem newHeaders_one_entry (config : InstrumentationConfig) :
  is_Some (APIKey config) ∨ is_Some (PublicAPIKey config) →
  ∃ headers : HeaderMap,
    newHeaders config = Ok headers
    ∧ size headers = 1
    ∧ headers
      = match PublicAPIKey config, APIKey config with
        | Some pk, _ => {["x-write-only-api-key" := pk]}
        | None, Some k => {["x-api-key" := k]}
        | None, None => ∅
        end.
Proof.
  intros Hkey.
  destruct (PublicAPIKey config) as [pk|] eqn:Hpk.
  - eexists. split; [by apply newHeaders_public|].
    split; [apply map_size_singleton | reflexivity].
  - destruct Hkey as [[k Hk]|[pk Hpk']]; [|discriminate].
    eexists. split; [by apply newHeaders_private|]. rewrite Hk.
    split; [apply map_size_singleton | reflexivity].
Qed.

Lemma newHeaders_one_entry_witness :
  ∃ headers : HeaderMap,
    newHeaders (mkConfig None (Some "sk") (Some "pk") None None None None None None)
      = Ok headers
    ∧ size headers = 1
    ∧ headers = {["x-write-only-api-key" := "pk"]}.
Proof.
  apply (newHeaders_one_entry
           (mkConfig None (Some "sk") (Some "pk") None None None None None None)).
  left. exists "sk". reflexivity.
Defined.

(** ** Environment *)

(** C8: [getDefaultConfig] depends on the environment through the seven
    listed variables only. *)
Theorem getDefaultConfig_reads_only (env1 env2 : Environ) :
  Forall (λ key, env1 !! key = env2 !! key) consumedVars →
  getDefaultConfig env1 = getDefaultConfig env2.
Proof.
  unfold consumedVars. intros H.
  repeat match goal with
         | H : Forall _ (_ :: _) |- _ => apply Forall_cons in H as [? H]
         end.
  unfold getDefaultConfig, getEnv.
  repeat match goal with
         | H : env1 !! _ = env2 !! _ |- _ => rewrite H; clear H
         end.
  reflexivity.
Qed.

Lemma getDefaultConfig_reads_only_witness :
  getDefaultConfig {["HOME" := "/root"; "API_KEY" := "sk"]}
  = getDefaultConfig {["API_KEY" := "sk"; "PATH" := "/usr/bin"]}.
Proof.
  apply getDefaultConfig_reads_only.
  unfold consumedVars. repeat constructor.
Defined.

(** C6, as claimed, fails: no environment variable fills a nil
    [GitHubURL], and none fills a nil [Headers]. *)
Lemma absent_fields_fallback_counterexample :
  ¬ (∀ f : Field, fallsBackToEnv f)
  ∧ ¬ fallsBackToEnv FGitHubURL ∧ ¬ fallsBackToEnv FHeaders.
Proof.
  assert (Hg : ¬ fallsBackToEnv FGitHubURL).
  { intros [key H].
    specialize (H {[key := "x"]} zeroConfig eq_refl).
    rewrite lookup_singleton_eq in H. specialize (H (mk_is_Some _ _ eq_refl)).
    rewrite applyDefaults_fields in H. discriminate. }
  assert (Hh : ¬ fallsBackToEnv FHeaders).
  { intros [key H].
    specialize (H {[key := "x"]} zeroConfig eq_refl).
    rewrite lookup_singleton_eq in H. specialize (H (mk_is_Some _ _ eq_refl)).
    rewrite applyDefaults_fields in H. discriminate. }
  split; [|by split]. intros H. exact (Hg (H FGitHubURL)).
Qed.

(** C6, amended: a nil [ServiceName], [InstanceID], [Env], [GitCommit] or
    [BaseURL] is replaced by the lookup of [SERVICE_NAME], [INSTANCE_ID],
    [ENVIRONMENT], [GIT_COMMIT] or [BASE_URL]; [GitHubURL] and [Headers]
    stay as the caller gave them. *)
Theorem absent_fields_fallback (env : Environ) (config : InstrumentationConfig) :
  let used := applyDefaults env config in
  (ServiceName config = None →
     ServiceName used = getEnv env "SERVICE_NAME" (Some "default-service"))
  ∧ (InstanceID config = None → InstanceID used = getEnv env "INSTANCE_ID" None)
  ∧ (Env config = None → Env used = getEnv env "ENVIRONMENT" (Some "development"))
  ∧ (GitCommit config = None → GitCommit used = getEnv env "GIT_COMMIT" None)
  ∧ (BaseURL config = None → BaseURL used = getEnv env "BASE_URL" (Some "api.iudex.ai"))
  ∧ GitHubURL used = GitHubURL config
  ∧ Headers used = Headers config.
Proof.
  intros used. subst used. rewrite applyDefaults_fields. simpl.
  unfold getEnv.
  repeat apply conj; try reflexivity; intros ->; by repeat case_match.
Qed.

Lemma absent_fields_fallback_witness :
  let env : Environ := {["SERVICE_NAME" := "billing"]} in
  let used := applyDefaults env zeroConfig in
  ServiceName used = getEnv env "SERVICE_NAME" (Some "default-service")
  ∧ InstanceID used = getEnv env "INSTANCE_ID" None
  ∧ Env used = getEnv env "ENVIRONMENT" (Some "development")
  ∧ GitCommit used = getEnv env "GIT_COMMIT" None
  ∧ BaseURL used = getEnv env "BASE_URL" (Some "api.iudex.ai")
  ∧ GitHubURL used = None
  ∧ Headers used = None.
Proof.
  intros env used.
  destruct (absent_fields_fallback env zeroConfig) as (H1 & H2 & H3 & H4 & H5 & H6 & H7).
  exact (conj (H1 eq_refl) (conj (H2 eq_refl) (conj (H3 eq_refl)
           (conj (H4 eq_refl) (conj (H5 eq_refl) (conj H6 H7)))))).
Defined.

(** ** Set-up *)

Section SetupFacts.

Context (sdk : SDK).

Implicit Types (s : State sdk) (config : InstrumentationConfig) (env : Environ).

Lemma errors_Join_some (inErr : error) (e : option error) :
  is_Some (errors_Join [Some inErr; e]).
Proof. unfold errors_Join. destruct e; simpl; eauto. Qed.

Lemma errors_Join_nil_l (e : option error) :
  errors_Join [None; e] = if e is Some x then Some (joinError [x]) else None.
Proof. by destruct e. Qed.

Lemma Frame_refl s : Frame sdk s s.
Proof.
  split; try reflexivity. exists []. split; [by rewrite app_nil_r | constructor].
Qed.

Lemma Frame_trans s1 s2 s3 : Frame sdk s1 s2 → Frame sdk s2 s3 → Frame sdk s1 s3.
Proof.
  intros [Hp1 Ht1 Hl1 Hf1 (n1 & Hc1 & Hn1)] [Hp2 Ht2 Hl2 Hf2 (n2 & Hc2 & Hn2)].
  split; try congruence.
  exists (n1 ++ n2)%list. split.
  - rewrite Hc2, Hc1. by rewrite <- app_assoc.
  - by apply Forall_app.
Qed.

Lemma sdkCall_Frame {A} (c : Call sdk) (op : World sdk → A * World sdk) s :
  registersProvider sdk c = false → Frame sdk s (snd (sdkCall sdk c op s)).
Proof.
  intros Hc. unfold sdkCall. destruct (op (world sdk s)) as [a w]. simpl.
  split; try reflexivity. exists [c]. split; [reflexivity | by repeat constructor].
Qed.

Lemma sdkCall_calls {A} (c : Call sdk) (op : World sdk → A * World sdk) s :
  calls sdk (snd (sdkCall sdk c op s)) = (calls sdk s ++ [c])%list.
Proof. unfold sdkCall. by destruct (op (world sdk s)). Qed.

Lemma newResource_Frame config s :
  Frame sdk s (snd (newResource sdk config s)).
Proof.
  unfold newResource, bind.
  match goal with
  | |- context [sdkCall sdk ?c ?op s] =>
      pose proof (sdkCall_Frame c op s eq_refl) as HF;
      destruct (sdkCall sdk c op s) as [[res|err] s']
  end; exact HF.
Qed.

Lemma newTraceProvider_Frame config res headers s :
  Frame sdk s (snd (newTraceProvider sdk config res headers s)).
Proof.
  unfold newTraceProvider, bind.
  match goal with
  | |- context [sdkCall sdk ?c ?op s] =>
      pose proof (sdkCall_Frame c op s eq_refl) as HF;
      destruct (sdkCall sdk c op s) as [[e|err] s']
  end; simpl in *; [|exact HF].
  match goal with
  | |- context [sdkCall sdk ?c ?op s'] =>
      pose proof (sdkCall_Frame c op s' eq_refl) as HF';
      destruct (sdkCall sdk c op s') as [tp s'']
  end; simpl in *.
  by eapply Frame_trans.
Qed.

Lemma newLoggerProvider_Frame config res headers s :
  Frame sdk s (snd (newLoggerProvider sdk config res headers s)).
Proof.
  unfold newLoggerProvider, bind.
  match goal with
  | |- context [sdkCall sdk ?c ?op s] =>
      pose proof (sdkCall_Frame c op s eq_refl) as HF;
      destruct (sdkCall sdk c op s) as [[e|err] s']
  end; simpl in *; [|exact HF].
  match goal with
  | |- context [sdkCall sdk ?c ?op s'] =>
      pose proof (sdkCall_Frame c op s' eq_refl) as HF';
      destruct (sdkCall sdk c op s') as [p s'']
  end; simpl in *.
  match goal with
  | |- context [sdkCall sdk ?c ?op s''] =>
      pose proof (sdkCall_Frame c op s'' eq_refl) as HF'';
      destruct (sdkCall sdk c op s'') as [lp s''']
  end; simpl in *.
  eapply Frame_trans; [|exact HF'']. by eapply Frame_trans.
Qed.

(** The loop calls every function of the list once, in order, and
    nothing else. *)
Lemma runShutdownFuncs_spec (fns : list (Cleanup sdk)) (err : option error) s :
  let s' := snd (runShutdownFuncs sdk fns err s) in
  Frame sdk s s' ∧ calls sdk s' = (calls sdk s ++ map CallShutdown fns)%list.
Proof.
  revert err s. induction fns as [|fn fns IH]; intros err s; simpl.
  - split; [apply Frame_refl | by rewrite app_nil_r].
  - unfold bind.
    assert (HF : Frame sdk s (snd (callCleanup sdk fn s))
                 ∧ calls sdk (snd (callCleanup sdk fn s))
                   = (calls sdk s ++ [CallShutdown fn])%list).
    { destruct fn; simpl; (split; [by apply sdkCall_Frame | apply sdkCall_calls]). }
    destruct (callCleanup sdk fn s) as [e s1]. simpl in HF.
    destruct HF as [HF Hc].
    destruct (IH (errors_Join [err; e]) s1) as [HF' Hc'].
    split; [by eapply Frame_trans|].
    rewrite Hc', Hc. by rewrite <- app_assoc.
Qed.

Lemma shutdown_unfold s :
  shutdown sdk s =
    (fst (runShutdownFuncs sdk (shutdownFuncs sdk s) None s),
     snd (setShutdownFuncs sdk []
            (snd (runShutdownFuncs sdk (shutdownFuncs sdk s) None s)))).
Proof.
  unfold shutdown, bind, getShutdownFuncs, ret.
  by destruct (runShutdownFuncs sdk (shutdownFuncs sdk s) None s).
Qed.

Lemma handleErr_unfold (inErr : error) s :
  handleErr sdk inErr s =
    (errors_Join [Some inErr; fst (runShutdownFuncs sdk (shutdownFuncs sdk s) None s)],
     snd (setShutdownFuncs sdk []
            (snd (runShutdownFuncs sdk (shutdownFuncs sdk s) None s)))).
Proof.
  unfold handleErr, bind, ret. by rewrite shutdown_unfold.
Qed.

(** C7: a second call of [shutdown] directly after the first finds
    [shutdownFuncs] nil: it returns nil, calls nothing and leaves the
    state as it was. *)
Theorem shutdown_twice s :
  let s1 := snd (shutdown sdk s) in
  shutdownFuncs sdk s1 = []
  ∧ shutdown sdk s1 = (None, s1)
  ∧ calls sdk (snd (shutdown sdk s1)) = calls sdk s1.
Proof.
  intros s1. subst s1. rewrite shutdown_unfold. simpl.
  destruct (runShutdownFuncs sdk (shutdownFuncs sdk s) None s) as [e s']. simpl.
  split; [reflexivity|]. split; reflexivity.
Qed.

(** [setupOTelSDK] as a cascade over the results of its constructors. *)
Lemma setupOTelSDK_unfold env config s :
  setupOTelSDK sdk env config s =
    let cfg := applyDefaults env config in
    let '(r, s1) := newResource sdk cfg (setupStart sdk s) in
    match r with
    | Err err => handleErr sdk err s1
    | Ok res =>
        match newHeaders cfg with
        | Err err => handleErr sdk err s1
        | Ok headers =>
            let '(r, s2) := newTraceProvider sdk cfg res headers s1 in
            match r with
            | Err err => handleErr sdk err s2
            | Ok tp =>
                let '(r, s3) :=
                  newLoggerProvider sdk cfg res headers (tracerStarted sdk tp s2) in
                match r with
                | Err err => handleErr sdk err s3
                | Ok lp =>
                    (None,
                     snd (global_SetLoggerProvider sdk lp
                            (snd (setShutdownFuncs sdk
                                    (append (shutdownFuncs sdk s3)
                                            (LoggerProviderShutdown lp)) s3))))
                end
            end
        end
    end.
Proof.
  unfold setupOTelSDK, bind at 1 2 3. simpl.
  unfold setupStart. simpl.
  destruct (newResource sdk _ _) as [[res|err] s1]; [|reflexivity].
  destruct (newHeaders _) as [headers|err]; [|reflexivity].
  unfold bind at 1.
  destruct (newTraceProvider sdk _ _ _ _) as [[tp|err] s2]; [|reflexivity].
  unfold bind at 1 2 3 4. simpl.
  unfold tracerStarted. simpl.
  destruct (newLoggerProvider sdk _ _ _ _) as [[lp|err] s3]; reflexivity.
Qed.

Lemma setupStart_Frame_fields s :
  tracerProvider sdk (setupStart sdk s) = tracerProvider sdk s
  ∧ loggerProvider sdk (setupStart sdk s) = loggerProvider sdk s
  ∧ shutdownFuncs sdk (setupStart sdk s) = []
  ∧ calls sdk (setupStart sdk s)
    = (calls sdk s ++ [CallSetTextMapPropagator sdk newPropagator])%list.
Proof. by repeat split. Qed.

(** Failing with nothing started: the error is returned joined, the
    state gains no call and loses no registration. *)
Lemma handleErr_nothing_started (inErr : error) s :
  shutdownFuncs sdk s = [] →
  fst (handleErr sdk inErr s) = Some (joinError [inErr])
  ∧ Frame sdk s (snd (handleErr sdk inErr s)).
Proof.
  intros Hs. rewrite handleErr_unfold, Hs. simpl. split; [reflexivity|].
  split; simpl; try done. exists []. split; [by rewrite app_nil_r | constructor].
Qed.

(** Without a key in the configuration, set-up fails before any provider
    is built, whatever the environment holds. *)
Lemma setupOTelSDK_no_config_key env config s :
  APIKey config = None → PublicAPIKey config = None →
  let r := setupOTelSDK sdk env config s in
  is_Some (fst r)
  ∧ tracerProvider sdk (snd r) = tracerProvider sdk s
  ∧ loggerProvider sdk (snd r) = loggerProvider sdk s
  ∧ ∃ new, calls sdk (snd r) = (calls sdk s ++ new)%list
           ∧ Forall (λ c, registersProvider sdk c = false) new.
Proof.
  intros Hk Hpk r. subst r. rewrite setupOTelSDK_unfold. simpl.
  destruct (setupStart_Frame_fields s) as (Ht & Hl & Hf & Hc).
  pose proof (newResource_Frame (applyDefaults env config) (setupStart sdk s)) as HF.
  destruct (newResource sdk _ _) as [[res|err] s1]; simpl in HF.
  - destruct (newHeaders_no_key (applyDefaults env config)) as [err Herr].
    { by rewrite applyDefaults_APIKey. }
    { by rewrite applyDefaults_PublicAPIKey. }
    rewrite Herr.
    destruct (handleErr_nothing_started err s1) as [He HF'].
    { by rewrite (frame_funcs _ _ _ HF). }
    pose proof (Frame_trans _ _ _ HF HF') as [_ Ht' Hl' _ (new & Hn & Hreg)].
    rewrite He. split; [eauto|]. split; [congruence|]. split; [congruence|].
    exists (CallSetTextMapPropagator sdk newPropagator :: new). split.
    + rewrite Hn, Hc. by rewrite <- app_assoc.
    + by constructor.
  - destruct (handleErr_nothing_started err s1) as [He HF'].
    { by rewrite (frame_funcs _ _ _ HF). }
    pose proof (Frame_trans _ _ _ HF HF') as [_ Ht' Hl' _ (new & Hn & Hreg)].
    rewrite He. split; [eauto|]. split; [congruence|]. split; [congruence|].
    exists (CallSetTextMapPropagator sdk newPropagator :: new). split.
    + rewrite Hn, Hc. by rewrite <- app_assoc.
    + by constructor.
Qed.

(** C1: when the configuration carries no key and neither [API_KEY] nor
    [PUBLIC_API_KEY] is set, [setupOTelSDK] returns a non-nil error, the
    global tracer and logger providers are what they were, and no
    registration call was made. *)
Theorem setupOTelSDK_missing_keys env config s :
  APIKey config = None → PublicAPIKey config = None →
  env !! "API_KEY" = None → env !! "PUBLIC_API_KEY" = None →
  let r := setupOTelSDK sdk env config s in
  is_Some (fst r)
  ∧ tracerProvider sdk (snd r) = tracerProvider sdk s
  ∧ loggerProvider sdk (snd r) = loggerProvider sdk s
  ∧ ∃ new, calls sdk (snd r) = (calls sdk s ++ new)%list
           ∧ Forall (λ c, registersProvider sdk c = false) new.
Proof. intros Hk Hpk _ _. by apply setupOTelSDK_no_config_key. Qed.

Lemma newResource_Frame_eq config s r s' :
  newResource sdk config s = (r, s') → Frame sdk s s'.
Proof. intros H. pose proof (newResource_Frame config s) as F. by rewrite H in F. Qed.

Lemma newTraceProvider_Frame_eq config res headers s r s' :
  newTraceProvider sdk config res headers s = (r, s') → Frame sdk s s'.
Proof.
  intros H. pose proof (newTraceProvider_Frame config res headers s) as F.
  by rewrite H in F.
Qed.

Lemma newLoggerProvider_Frame_eq config res headers s r s' :
  newLoggerProvider sdk config res headers s = (r, s') → Frame sdk s s'.
Proof.
  intros H. pose proof (newLoggerProvider_Frame config res headers s) as F.
  by rewrite H in F.
Qed.

Lemma ConstructorFails_started env config s inErr started sf :
  ConstructorFails sdk env config s inErr started sf →
  shutdownFuncs sdk sf = started.
Proof.
  destruct (setupStart_Frame_fields s) as (_ & _ & Hf & _).
  intros H; inversion H as
    [err s1 Hres
    |res err s1 Hres Hhd
    |res headers err s1 s2 Hres Hhd Htp
    |res headers tp err s1 s2 s3 Hres Hhd Htp Hlp]; subst.
  - pose proof (newResource_Frame_eq _ _ _ _ Hres) as F1. by rewrite (frame_funcs _ _ _ F1).
  - pose proof (newResource_Frame_eq _ _ _ _ Hres) as F1. by rewrite (frame_funcs _ _ _ F1).
  - pose proof (newResource_Frame_eq _ _ _ _ Hres) as F1.
    pose proof (newTraceProvider_Frame_eq _ _ _ _ _ _ Htp) as F2.
    by rewrite (frame_funcs _ _ _ F2), (frame_funcs _ _ _ F1).
  - pose proof (newResource_Frame_eq _ _ _ _ Hres) as F1.
    pose proof (newTraceProvider_Frame_eq _ _ _ _ _ _ Htp) as F2.
    pose proof (newLoggerProvider_Frame_eq _ _ _ _ _ _ Hlp) as F3.
    rewrite (frame_funcs _ _ _ F3). unfold tracerStarted; simpl.
    by rewrite (frame_funcs _ _ _ F2), (frame_funcs _ _ _ F1), Hf.
Qed.

Lemma ConstructorFails_handleErr env config s inErr started sf :
  ConstructorFails sdk env config s inErr started sf →
  setupOTelSDK sdk env config s = handleErr sdk inErr sf.
Proof.
  intros H. rewrite setupOTelSDK_unfold. simpl.
  inversion H as
    [err s1 Hres
    |res err s1 Hres Hhd
    |res headers err s1 s2 Hres Hhd Htp
    |res headers tp err s1 s2 s3 Hres Hhd Htp Hlp]; subst;
    rewrite Hres; try rewrite Hhd; try rewrite Htp; try rewrite Hlp; reflexivity.
Qed.

(** Every failed set-up is one of the four failures. *)
Lemma setupOTelSDK_error_inv env config s :
  is_Some (fst (setupOTelSDK sdk env config s)) →
  ∃ inErr started sf, ConstructorFails sdk env config s inErr started sf.
Proof.
  rewrite setupOTelSDK_unfold. simpl.
  destruct (newResource sdk _ _) as [[res|err] s1] eqn:Hres;
    [|intros _; eauto using ResourceFails].
  destruct (newHeaders _) as [headers|err] eqn:Hhd;
    [|intros _; eauto using HeadersFail].
  destruct (newTraceProvider sdk _ _ _ _) as [[tp|err] s2] eqn:Htp;
    [|intros _; eauto using TraceProviderFails].
  destruct (newLoggerProvider sdk _ _ _ _) as [[lp|err] s3] eqn:Hlp;
    [|intros _; eauto using LoggerProviderFails].
  simpl. intros [? [=]].
Qed.


(** With one tracer provider started, the joined shutdown error is that
    provider's. *)
Lemma runShutdownFuncs_tracer (tp : TracerProvider sdk) s :
  fst (runShutdownFuncs sdk [TracerProviderShutdown tp] None s)
  = errors_Join [None; fst (TracerProvider_Shutdown sdk tp (world sdk s))].
Proof.
  simpl. unfold bind, sdkCall, ret.
  by destruct (TracerProvider_Shutdown sdk tp (world sdk s)).
Qed.

Lemma newResource_setHeaders config h s :
  newResource sdk (setHeaders config h) s = newResource sdk config s.
Proof. reflexivity. Qed.

Lemma setupOTelSDK_setHeaders env config h s :
  setupOTelSDK sdk env (setHeaders config h) s = setupOTelSDK sdk env config s.
Proof.
  unfold setupOTelSDK. rewrite applyDefaults_setHeaders. reflexivity.
Qed.

(** C9: two configurations that differ in [Headers] only give the same
    outgoing header map, the same resource and the same run of
    [setupOTelSDK]: the same error or success and the same final state. *)
Theorem setupOTelSDK_ignores_Headers env config (h1 h2 : option HeaderMap) s :
  newHeaders (applyDefaults env (setHeaders config h1))
    = newHeaders (applyDefaults env (setHeaders config h2))
  ∧ newResource sdk (applyDefaults env (setHeaders config h1)) s
    = newResource sdk (applyDefaults env (setHeaders config h2)) s
  ∧ setupOTelSDK sdk env (setHeaders config h1) s
    = setupOTelSDK sdk env (setHeaders config h2) s.
Proof.
  rewrite !applyDefaults_setHeaders, !newHeaders_setHeaders,
    !newResource_setHeaders, !setupOTelSDK_setHeaders.
  done.
Qed.

(** C10, at the failing input: with every field nil and [PUBLIC_API_KEY]
    set to the empty string, [getEnv] does return a pointer to the empty
    string and [getDefaultConfig] carries it, but the defaulting block
    never copies it: [newHeaders] sees no key and set-up fails. *)
Theorem setupOTelSDK_empty_env_key_rejected s :
  let env : Environ := {["PUBLIC_API_KEY" := ""]} in
  getEnv env "PUBLIC_API_KEY" None = Some ""
  ∧ PublicAPIKey (getDefaultConfig env) = Some ""
  ∧ PublicAPIKey (applyDefaults env zeroConfig) = None
  ∧ (∃ err, newHeaders (applyDefaults env zeroConfig) = Err err)
  ∧ is_Some (fst (setupOTelSDK sdk env zeroConfig s)).
Proof.
  intros env. split; [reflexivity|]. split; [reflexivity|].
  split; [reflexivity|]. split; [by eexists|].
  by apply (setupOTelSDK_no_config_key env zeroConfig s).
Qed.

End SetupFacts.

(** ** The theorems at concrete inputs *)

Lemma setupOTelSDK_missing_keys_witness :
  let sdk := exampleSDK true true in
  let env : Environ := {["SERVICE_NAME" := "billing"]} in
  let s := freshState sdk 0 in
  let r := setupOTelSDK sdk env zeroConfig s in
  is_Some (fst r)
  ∧ tracerProvider sdk (snd r) = tracerProvider sdk s
  ∧ loggerProvider sdk (snd r) = loggerProvider sdk s
  ∧ ∃ new, calls sdk (snd r) = (calls sdk s ++ new)%list
           ∧ Forall (λ c, registersProvider sdk c = false) new.
Proof.
  intros sdk env s.
  apply (setupOTelSDK_missing_keys sdk env zeroConfig s); reflexivity.
Defined.


(** ** Further properties of the header map and of defaulting *)

(** X1: [newHeaders] fails exactly when both keys are nil; with either
    key present it returns a header map. *)
Theorem newHeaders_error_iff (config : InstrumentationConfig) :
  (∃ err, newHeaders config = Err err)
  ↔ APIKey config = None ∧ PublicAPIKey config = None.
Proof.
  split.
  - intros [err H]. unfold newHeaders in H.
    destruct (APIKey config), (PublicAPIKey config); by try discriminate.
  - intros [Hk Hpk]. by apply newHeaders_no_key.
Qed.

(** X2: every entry of the header map is one of the two authentication
    headers and carries the matching key; the private key is sent only
    when no write-only key is configured. *)
Theorem newHeaders_entries (config : InstrumentationConfig)
    (headers : HeaderMap) (name value : string) :
  newHeaders config = Ok headers →
  headers !! name = Some value →
  (name = "x-write-only-api-key" ∧ PublicAPIKey config = Some value)
  ∨ (name = "x-api-key" ∧ PublicAPIKey config = None
     ∧ APIKey config = Some value).
Proof.
  intros Hh Hl.
  destruct (PublicAPIKey config) as [pk|] eqn:Hpk.
  - rewrite (newHeaders_public config pk Hpk) in Hh. injection Hh as <-.
    apply lookup_singleton_Some in Hl as [<- <-]. by left.
  - destruct (APIKey config) as [k|] eqn:Hk.
    + rewrite (newHeaders_private config k Hpk Hk) in Hh. injection Hh as <-.
      apply lookup_singleton_Some in Hl as [<- <-]. by right.
    + destruct (newHeaders_no_key config Hk Hpk) as [err Herr]. congruence.
Qed.

Lemma newHeaders_entries_witness :
  ("x-write-only-api-key" = "x-write-only-api-key"
   ∧ PublicAPIKey bothKeysConfig = Some "pk_live")
  ∨ ("x-write-only-api-key" = "x-api-key" ∧ PublicAPIKey bothKeysConfig = None
     ∧ APIKey bothKeysConfig = Some "pk_live").
Proof.
  apply (newHeaders_entries bothKeysConfig
           {["x-write-only-api-key" := "pk_live"]}
           "x-write-only-api-key" "pk_live"); reflexivity.
Defined.

(** X3: after defaulting, [BaseURL], [ServiceName] and [Env] are never
    nil, and defaulting a second time under the same environment changes
    nothing. *)
Theorem applyDefaults_settled (env : Environ) (config : InstrumentationConfig) :
  let used := applyDefaults env config in
  is_Some (BaseURL used) ∧ is_Some (ServiceName used) ∧ is_Some (Env used)
  ∧ applyDefaults env used = used.
Proof.
  intros used. subst used.
  rewrite (applyDefaults_fields env (applyDefaults env config)).
  rewrite applyDefaults_fields. simpl. unfold getEnv, stringPtr.
  destruct config as [bu ak pk hd sn ii en gc gh]; simpl.
  destruct bu, sn, ii, en, gc; simpl;
    repeat (match goal with |- context [env !! ?k] => destruct (env !! k) end; simpl);
    repeat split; eauto.
Qed.

(** ** Further properties of shutdown and set-up *)

Section MoreSetupFacts.

Context (sdk : SDK).

Implicit Types (s : State sdk) (config : InstrumentationConfig) (env : Environ).



(** X4: [shutdown] calls every registered clean-up exactly once, in
    registration order, whatever the earlier ones return; it empties
    [shutdownFuncs] and leaves the three global registrations in place. *)
Theorem shutdown_calls_every_cleanup s :
  let s' := snd (shutdown sdk s) in
  calls sdk s' = (calls sdk s ++ map CallShutdown (shutdownFuncs sdk s))%list
  ∧ shutdownFuncs sdk s' = []
  ∧ textMapPropagator sdk s' = textMapPropagator sdk s
  ∧ tracerProvider sdk s' = tracerProvider sdk s
  ∧ loggerProvider sdk s' = loggerProvider sdk s.
Proof.
  intros s'. subst s'. rewrite shutdown_unfold. simpl.
  destruct (runShutdownFuncs_spec sdk (shutdownFuncs sdk s) None s)
    as [[Hp Ht Hl _ _] Hc].
  by repeat apply conj.
Qed.


Lemma handleErr_some (inErr : error) s : is_Some (fst (handleErr sdk inErr s)).
Proof. rewrite handleErr_unfold. apply errors_Join_some. Qed.

Lemma handleErr_globals (inErr : error) s :
  let s' := snd (handleErr sdk inErr s) in
  calls sdk s' = (calls sdk s ++ map CallShutdown (shutdownFuncs sdk s))%list
  ∧ shutdownFuncs sdk s' = []
  ∧ textMapPropagator sdk s' = textMapPropagator sdk s
  ∧ tracerProvider sdk s' = tracerProvider sdk s
  ∧ loggerProvider sdk s' = loggerProvider sdk s.
Proof.
  intros s'. subst s'. rewrite handleErr_unfold. simpl.
  destruct (runShutdownFuncs_spec sdk (shutdownFuncs sdk s) None s)
    as [[Hp Ht Hl _ _] Hc].
  by repeat apply conj.
Qed.

(** What [newResource] asks of the SDK: one [resource.New], with one
    attribute per non-nil field, in the order of the source. *)
Lemma newResource_calls config s :
  calls sdk (snd (newResource sdk config s))
  = (calls sdk s ++
     [CallResourceNew sdk
        (omap (λ kv : string * option string, pair kv.1 <$> kv.2)
           [("service.name", ServiceName config);
            ("service.instance.id", InstanceID config);
            ("env", Env config);
            ("git.commit", GitCommit config);
            ("github.url", GitHubURL config)])])%list.
Proof.
  unfold newResource, bind.
  match goal with
  | |- context [sdkCall sdk ?c ?op s] =>
      pose proof (sdkCall_calls sdk c op s) as Hc;
      destruct (sdkCall sdk c op s) as [[res|err] s']
  end; simpl in *; rewrite Hc;
    destruct (ServiceName config), (InstanceID config), (Env config),
      (GitCommit config), (GitHubURL config); reflexivity.
Qed.

Lemma newResource_result config s :
  let attrs :=
    omap (λ kv : string * option string, pair kv.1 <$> kv.2)
      [("service.name", ServiceName config);
       ("service.instance.id", InstanceID config);
       ("env", Env config);
       ("git.commit", GitCommit config);
       ("github.url", GitHubURL config)] in
  fst (newResource sdk config s)
  = match fst (resource_New sdk attrs (world sdk s)) with
    | Ok res => Ok res
    | Err e => Err (wrapError "failed to create resource: " e)
    end.
Proof.
  unfold newResource, bind, sdkCall, ret, append.
  destruct (ServiceName config), (InstanceID config), (Env config),
    (GitCommit config), (GitHubURL config); simpl;
    match goal with
    | |- context [resource_New sdk ?a ?w] =>
        destruct (resource_New sdk a w) as [[res|e] w']
    end; reflexivity.
Qed.

Lemma newTraceProvider_calls config res headers s r s' :
  newTraceProvider sdk config res headers s = (r, s') →
  let url := default "api.iudex.ai" (BaseURL config) in
  match r with
  | Ok tp =>
      ∃ te, calls sdk s'
            = (calls sdk s ++ [CallTraceExporterNew sdk url headers;
                               CallNewTracerProvider sdk te time_Second res])%list
  | Err _ => calls sdk s' = (calls sdk s ++ [CallTraceExporterNew sdk url headers])%list
  end.
Proof.
  unfold newTraceProvider, bind, sdkCall, ret, append. intros H.
  destruct (BaseURL config); simpl in *;
    destruct (otlptracehttp_New sdk _ headers (world sdk s)) as [[te|e] w];
    simpl in *.
  all: try (destruct (trace_NewTracerProvider sdk te time_Second res w) as [tp w'];
            simpl in *; injection H as <- <-; simpl; exists te;
            by rewrite <- app_assoc).
  all: by injection H as <- <-.
Qed.

Lemma newLoggerProvider_calls config res headers s r s' :
  newLoggerProvider sdk config res headers s = (r, s') →
  let url := default "api.iudex.ai" (BaseURL config) in
  match r with
  | Ok lp =>
      ∃ le p, calls sdk s'
              = (calls sdk s ++ [CallLogExporterNew sdk url headers;
                                 CallNewBatchProcessor sdk le;
                                 CallNewLoggerProvider sdk res p])%list
  | Err _ => calls sdk s' = (calls sdk s ++ [CallLogExporterNew sdk url headers])%list
  end.
Proof.
  unfold newLoggerProvider, bind, sdkCall, ret, append. intros H.
  destruct (BaseURL config); simpl in *;
    destruct (otlploghttp_New sdk _ headers (world sdk s)) as [[le|e] w];
    simpl in *.
  all: try (destruct (log_NewBatchProcessor sdk le w) as [p w']; simpl in *;
            destruct (log_NewLoggerProvider sdk res p w') as [lp w'']; simpl in *;
            injection H as <- <-; simpl; exists le, p;
            by rewrite <- !app_assoc).
  all: by injection H as <- <-.
Qed.

Ltac frames :=
  repeat match goal with
    | H : newResource _ _ _ = (_, _) |- _ =>
        apply newResource_Frame_eq in H; destruct H as [? ? ? ? ?]
    | H : newTraceProvider _ _ _ _ _ = (_, _) |- _ =>
        apply newTraceProvider_Frame_eq in H; destruct H as [? ? ? ? ?]
    | H : newLoggerProvider _ _ _ _ _ = (_, _) |- _ =>
        apply newLoggerProvider_Frame_eq in H; destruct H as [? ? ? ? ?]
    end.

(** What the globals hold when a constructor has just failed. *)
Lemma ConstructorFails_globals env config s inErr started sf :
  ConstructorFails sdk env config s inErr started sf →
  textMapPropagator sdk sf = Some newPropagator
  ∧ loggerProvider sdk sf = loggerProvider sdk s
  ∧ match started with
    | [] => tracerProvider sdk sf = tracerProvider sdk s
    | fn :: _ =>
        ∃ tp, fn = TracerProviderShutdown tp ∧ started = [fn]
              ∧ tracerProvider sdk sf = Some tp
    end.
Proof.
  intros H; inversion H as
    [err s1 Hres
    |res err s1 Hres Hhd
    |res headers err s1 s2 Hres Hhd Htp
    |res headers tp err s1 s2 s3 Hres Hhd Htp Hlp]; subst; frames; simpl in *.
  - repeat apply conj; congruence.
  - repeat apply conj; congruence.
  - repeat apply conj; congruence.
  - split; [congruence|]. split; [congruence|].
    exists tp. repeat apply conj; congruence.
Qed.

Lemma setupOTelSDK_success_inv env config s :
  fst (setupOTelSDK sdk env config s) = None →
  ∃ res headers tp lp s1 s2 s3,
    newResource sdk (applyDefaults env config) (setupStart sdk s) = (Ok res, s1)
    ∧ newHeaders (applyDefaults env config) = Ok headers
    ∧ newTraceProvider sdk (applyDefaults env config) res headers s1 = (Ok tp, s2)
    ∧ newLoggerProvider sdk (applyDefaults env config) res headers
        (tracerStarted sdk tp s2) = (Ok lp, s3)
    ∧ snd (setupOTelSDK sdk env config s)
      = mkState sdk (world sdk s3) (textMapPropagator sdk s3)
          (tracerProvider sdk s3) (Some lp)
          (append (shutdownFuncs sdk s3) (LoggerProviderShutdown lp))
          (append (calls sdk s3) (CallSetLoggerProvider sdk lp)).
Proof.
  rewrite setupOTelSDK_unfold. simpl.
  destruct (newResource sdk _ _) as [[res|err] s1] eqn:Hres.
  2: { intros H. destruct (handleErr_some err s1) as [x Hx]. congruence. }
  destruct (newHeaders _) as [headers|err] eqn:Hhd.
  2: { intros H. destruct (handleErr_some err s1) as [x Hx]. congruence. }
  destruct (newTraceProvider sdk _ _ _ _) as [[tp|err] s2] eqn:Htp.
  2: { intros H. destruct (handleErr_some err s2) as [x Hx]. congruence. }
  destruct (newLoggerProvider sdk _ _ _ _) as [[lp|err] s3] eqn:Hlp.
  2: { intros H. destruct (handleErr_some err s3) as [x Hx]. congruence. }
  intros _. by exists res, headers, tp, lp, s1, s2, s3.
Qed.

Lemma setupOTelSDK_success_fields env config s :
  fst (setupOTelSDK sdk env config s) = None →
  ∃ tp lp,
    tracerProvider sdk (snd (setupOTelSDK sdk env config s)) = Some tp
    ∧ loggerProvider sdk (snd (setupOTelSDK sdk env config s)) = Some lp
    ∧ shutdownFuncs sdk (snd (setupOTelSDK sdk env config s))
      = [TracerProviderShutdown tp; LoggerProviderShutdown lp]
    ∧ textMapPropagator sdk (snd (setupOTelSDK sdk env config s))
      = Some newPropagator.
Proof.
  intros H.
  destruct (setupOTelSDK_success_inv _ _ _ H)
    as (res & headers & tp & lp & s1 & s2 & s3 & Hres & Hhd & Htp & Hlp & ->).
  exists tp, lp. frames. simpl in *. unfold append in *.
  repeat apply conj; try congruence.
  repeat match goal with H : shutdownFuncs sdk _ = _ |- _ => rewrite H; clear H end.
  reflexivity.
Qed.

Lemma applyDefaults_BaseURL_some env config :
  ∃ url, BaseURL (applyDefaults env config) = Some url.
Proof.
  rewrite applyDefaults_fields. simpl. unfold getEnv, stringPtr.
  destruct (BaseURL config); [eauto|]. destruct (env !! "BASE_URL"); eauto.
Qed.

Lemma setupOTelSDK_success_calls env config s :
  fst (setupOTelSDK sdk env config s) = None →
  ∃ url headers attrs res te tp le p lp,
    BaseURL (applyDefaults env config) = Some url
    ∧ newHeaders (applyDefaults env config) = Ok headers
    ∧ calls sdk (snd (setupOTelSDK sdk env config s))
      = (calls sdk s ++
         [CallSetTextMapPropagator sdk newPropagator;
          CallResourceNew sdk attrs;
          CallTraceExporterNew sdk url headers;
          CallNewTracerProvider sdk te time_Second res;
          CallSetTracerProvider sdk tp;
          CallLogExporterNew sdk url headers;
          CallNewBatchProcessor sdk le;
          CallNewLoggerProvider sdk res p;
          CallSetLoggerProvider sdk lp])%list.
Proof.
  intros H.
  destruct (setupOTelSDK_success_inv _ _ _ H)
    as (res & headers & tp & lp & s1 & s2 & s3 & Hres & Hhd & Htp & Hlp & ->).
  destruct (applyDefaults_BaseURL_some env config) as [url Hurl].
  pose proof (newResource_calls (applyDefaults env config) (setupStart sdk s)) as C1.
  rewrite Hres in C1. simpl in C1.
  destruct (newTraceProvider_calls _ _ _ _ _ _ Htp) as [te C2].
  destruct (newLoggerProvider_calls _ _ _ _ _ _ Hlp) as (le & p & C3).
  rewrite Hurl in C2, C3. simpl in C2, C3.
  eexists url, headers, _, res, te, tp, le, p, lp.
  split; [done|]. split; [done|].
  simpl. unfold append in *. rewrite C3, C2, C1.
  by rewrite <- !app_assoc.
Qed.

Lemma setupOTelSDK_calls_prefix env config s :
  ∃ rest,
    calls sdk (snd (setupOTelSDK sdk env config s))
    = (calls sdk (snd (newResource sdk (applyDefaults env config) (setupStart sdk s)))
       ++ rest)%list.
Proof.
  rewrite setupOTelSDK_unfold. simpl.
  destruct (newResource sdk _ _) as [[res|err] s1] eqn:Hres; simpl.
  2: { destruct (handleErr_globals err s1) as [-> _]. eauto. }
  destruct (newHeaders _) as [headers|err] eqn:Hhd.
  2: { destruct (handleErr_globals err s1) as [-> _]. eauto. }
  destruct (newTraceProvider sdk _ _ _ _) as [[tp|err] s2] eqn:Htp.
  2: { destruct (handleErr_globals err s2) as [-> _].
       apply newTraceProvider_Frame_eq in Htp as [_ _ _ _ (n2 & -> & _)].
       eexists. by rewrite <- app_assoc. }
  apply newTraceProvider_Frame_eq in Htp as [_ _ _ _ (n2 & Hc2 & _)].
  destruct (newLoggerProvider sdk _ _ _ _) as [[lp|err] s3] eqn:Hlp.
  2: { destruct (handleErr_globals err s3) as [-> _].
       apply newLoggerProvider_Frame_eq in Hlp as [_ _ _ _ (n3 & -> & _)].
       simpl. unfold append. rewrite Hc2.
       eexists. by rewrite <- !app_assoc. }
  apply newLoggerProvider_Frame_eq in Hlp as [_ _ _ _ (n3 & Hc3 & _)].
  simpl. unfold append. rewrite Hc3. simpl. unfold append. rewrite Hc2.
  eexists. by rewrite <- !app_assoc.
Qed.

(** X6: when [setupOTelSDK] returns nil, a tracer provider and a logger
    provider are registered as the globals, their two [Shutdown]s, in that
    order, are what [shutdownFuncs] holds, and the composite propagator
    is registered. *)
Theorem setupOTelSDK_success_registers env config s :
  let r := setupOTelSDK sdk env config s in
  fst r = None →
  ∃ tp lp,
    tracerProvider sdk (snd r) = Some tp
    ∧ loggerProvider sdk (snd r) = Some lp
    ∧ shutdownFuncs sdk (snd r)
      = [TracerProviderShutdown tp; LoggerProviderShutdown lp]
    ∧ textMapPropagator sdk (snd r) = Some newPropagator.
Proof. intros r H. by apply setupOTelSDK_success_fields. Qed.

(** X7: a successful set-up makes exactly nine SDK calls, in this order;
    both exporters get the same endpoint (the defaulted [BaseURL]) and the
    header map of [newHeaders], both providers get the same resource, and
    the trace batcher's timeout is one second. *)
Theorem setupOTelSDK_success_call_sequence env config s :
  let r := setupOTelSDK sdk env config s in
  fst r = None →
  ∃ url headers attrs res te tp le p lp,
    BaseURL (applyDefaults env config) = Some url
    ∧ newHeaders (applyDefaults env config) = Ok headers
    ∧ calls sdk (snd r)
      = (calls sdk s ++
         [CallSetTextMapPropagator sdk newPropagator;
          CallResourceNew sdk attrs;
          CallTraceExporterNew sdk url headers;
          CallNewTracerProvider sdk te 1000000000 res;
          CallSetTracerProvider sdk tp;
          CallLogExporterNew sdk url headers;
          CallNewBatchProcessor sdk le;
          CallNewLoggerProvider sdk res p;
          CallSetLoggerProvider sdk lp])%list.
Proof. intros r H. by apply setupOTelSDK_success_calls. Qed.

(** X8: a failed set-up, whichever constructor failed, registers no
    logger provider and leaves [shutdownFuncs] nil, so the closure it
    returns does nothing; the propagator it registered stays. *)
Theorem setupOTelSDK_failure_globals env config s :
  let r := setupOTelSDK sdk env config s in
  is_Some (fst r) →
  loggerProvider sdk (snd r) = loggerProvider sdk s
  ∧ shutdownFuncs sdk (snd r) = []
  ∧ shutdown sdk (snd r) = (None, snd r)
  ∧ textMapPropagator sdk (snd r) = Some newPropagator.
Proof.
  intros r H. subst r.
  destruct (setupOTelSDK_error_inv _ _ _ _ H) as (inErr & started & sf & Hf).
  rewrite (ConstructorFails_handleErr _ _ _ _ _ _ _ Hf).
  destruct (ConstructorFails_globals _ _ _ _ _ _ Hf) as (Hp & Hl & _).
  destruct (handleErr_globals inErr sf) as (_ & Hfn & Hp' & _ & Hl').
  split; [congruence|]. split; [done|]. split; [|congruence].
  rewrite shutdown_unfold, Hfn. simpl.
  destruct (snd (handleErr sdk inErr sf)) as [w p t l f c]. simpl in *.
  by subst f.
Qed.

(** X9: when the failure comes after the tracer provider was started
    (the logger provider could not be built), that tracer provider stays
    registered as the global one although set-up has just shut it down;
    when nothing was started, the global tracer provider is untouched. *)
Theorem setupOTelSDK_failure_tracer_global env config s inErr started sf :
  ConstructorFails sdk env config s inErr started sf →
  let r := setupOTelSDK sdk env config s in
  match started with
  | [] => tracerProvider sdk (snd r) = tracerProvider sdk s
  | fn :: _ =>
      ∃ tp, fn = TracerProviderShutdown tp
            ∧ tracerProvider sdk (snd r) = Some tp
            ∧ last (calls sdk (snd r)) = Some (CallShutdown fn)
  end.
Proof.
  intros Hf r. subst r.
  rewrite (ConstructorFails_handleErr _ _ _ _ _ _ _ Hf).
  destruct (ConstructorFails_globals _ _ _ _ _ _ Hf) as (_ & _ & Ht).
  destruct (handleErr_globals inErr sf) as (Hc & _ & _ & Ht' & _).
  rewrite (ConstructorFails_started _ _ _ _ _ _ _ Hf) in Hc.
  destruct started as [|fn rest]; [congruence|].
  destruct Ht as (tp & -> & [= ->] & Ht).
  exists tp. split; [done|]. split; [congruence|].
  rewrite Hc. simpl. by rewrite last_snoc.
Qed.

(** X10: when [resource.New] fails, set-up returns that error wrapped
    with the text "failed to create resource: " (and joined), makes no
    further SDK call and touches neither provider registration; this is
    so whether or not an API key is configured, because the resource is
    built before the keys are checked. *)
Theorem setupOTelSDK_resource_failure env config s (e : error) (w : World sdk) :
  let used := applyDefaults env config in
  let attrs :=
    omap (λ kv : string * option string, pair kv.1 <$> kv.2)
      [("service.name", ServiceName used);
       ("service.instance.id", InstanceID used);
       ("env", Env used);
       ("git.commit", GitCommit used);
       ("github.url", GitHubURL used)] in
  resource_New sdk attrs (world sdk s) = (Err e, w) →
  let r := setupOTelSDK sdk env config s in
  fst r = Some (joinError [wrapError "failed to create resource: " e])
  ∧ calls sdk (snd r)
    = (calls sdk s ++ [CallSetTextMapPropagator sdk newPropagator;
                       CallResourceNew sdk attrs])%list
  ∧ tracerProvider sdk (snd r) = tracerProvider sdk s
  ∧ loggerProvider sdk (snd r) = loggerProvider sdk s.
Proof.
  intros used attrs Hnew r. subst r attrs used.
  rewrite setupOTelSDK_unfold. cbv zeta.
  pose proof (newResource_result (applyDefaults env config) (setupStart sdk s)) as Hr.
  pose proof (newResource_calls (applyDefaults env config) (setupStart sdk s)) as Hc.
  pose proof (newResource_Frame sdk (applyDefaults env config) (setupStart sdk s))
    as [_ Ht Hl Hf _].
  cbv zeta in Hr.
  change (world sdk (setupStart sdk s)) with (world sdk s) in Hr.
  rewrite Hnew in Hr.
  destruct (newResource sdk (applyDefaults env config) (setupStart sdk s)) as [r1 s1].
  simpl in Hr, Hc, Ht, Hl, Hf. subst r1.
  rewrite handleErr_unfold, Hf. simpl.
  split; [reflexivity|]. split; [|by split].
  rewrite Hc. unfold append. by rewrite <- app_assoc.
Qed.

(** X11: with both keys nil in the configuration, set-up stops after
    building the resource: no exporter is constructed. *)
Theorem setupOTelSDK_missing_keys_no_exporter env config s :
  APIKey config = None → PublicAPIKey config = None →
  ∃ attrs,
    calls sdk (snd (setupOTelSDK sdk env config s))
    = (calls sdk s ++ [CallSetTextMapPropagator sdk newPropagator;
                       CallResourceNew sdk attrs])%list.
Proof.
  intros Hk Hpk. rewrite setupOTelSDK_unfold. simpl.
  pose proof (newResource_calls (applyDefaults env config) (setupStart sdk s)) as Hc.
  pose proof (newResource_Frame sdk (applyDefaults env config) (setupStart sdk s))
    as [_ _ _ Hf _].
  destruct (newHeaders_no_key (applyDefaults env config)) as [err Herr].
  { by rewrite applyDefaults_APIKey. }
  { by rewrite applyDefaults_PublicAPIKey. }
  rewrite Herr.
  destruct (newResource sdk _ _) as [[res|err'] s1]; simpl in *;
    rewrite handleErr_unfold, Hf; simpl; rewrite Hc; unfold append;
    eexists; by rewrite <- app_assoc.
Qed.

(** X13: after a successful set-up, [shutdown] shuts the tracer
    provider down and then the logger provider, and nothing else; both
    stay registered as the globals. *)
Theorem setupOTelSDK_then_shutdown env config s :
  let r := setupOTelSDK sdk env config s in
  fst r = None →
  ∃ tp lp,
    let s' := snd (shutdown sdk (snd r)) in
    calls sdk s'
    = (calls sdk (snd r) ++ [CallShutdown (TracerProviderShutdown tp);
                             CallShutdown (LoggerProviderShutdown lp)])%list
    ∧ shutdownFuncs sdk s' = []
    ∧ tracerProvider sdk s' = Some tp
    ∧ loggerProvider sdk s' = Some lp.
Proof.
  intros r H. subst r.
  destruct (setupOTelSDK_success_fields _ _ _ H) as (tp & lp & Ht & Hl & Hf & _).
  exists tp, lp. simpl. rewrite shutdown_unfold. simpl.
  destruct (runShutdownFuncs_spec sdk
              (shutdownFuncs sdk (snd (setupOTelSDK sdk env config s))) None
              (snd (setupOTelSDK sdk env config s)))
    as [[_ Ht' Hl' _ _] Hc].
  rewrite Hf in Hc, Ht', Hl'. rewrite Hf.
  repeat apply conj; [exact Hc | done | congruence | congruence].
Qed.

(** X15: every run of [setupOTelSDK] registers the propagator and then
    asks for a resource, also when set-up fails later; the resource's
    first attribute is [service.name], an [env] attribute is present, both
    with their defaulted values, and no attribute key occurs twice. *)
Theorem setupOTelSDK_resource_attributes env config s :
  ∃ attrs rest sn en,
    calls sdk (snd (setupOTelSDK sdk env config s))
    = (calls sdk s ++ CallSetTextMapPropagator sdk newPropagator
                      :: CallResourceNew sdk attrs :: rest)%list
    ∧ ServiceName (applyDefaults env config) = Some sn
    ∧ head attrs = Some ("service.name", sn)
    ∧ Env (applyDefaults env config) = Some en
    ∧ ("env", en) ∈ attrs
    ∧ NoDup attrs.*1.
Proof.
  destruct (setupOTelSDK_calls_prefix env config s) as [rest ->].
  rewrite newResource_calls. simpl. unfold append.
  assert (∃ sn, ServiceName (applyDefaults env config) = Some sn) as [sn Hsn].
  { rewrite applyDefaults_fields. simpl. unfold getEnv, stringPtr.
    destruct (ServiceName config); [eauto|]. destruct (env !! "SERVICE_NAME"); eauto. }
  assert (∃ en, Env (applyDefaults env config) = Some en) as [en Hen].
  { rewrite applyDefaults_fields. simpl. unfold getEnv, stringPtr.
    destruct (Env config); [eauto|]. destruct (env !! "ENVIRONMENT"); eauto. }
  rewrite Hsn, Hen. eexists _, rest, sn, en.
  split; [by rewrite <- !app_assoc|].
  split; [done|]. split; [done|]. split; [done|].
  destruct (InstanceID _), (GitCommit _), (GitHubURL _); simpl;
    (split; [set_solver | by apply (bool_decide_unpack _)]).
Qed.

(** [newResource] and [newTraceProvider] in terms of what the SDK
    returns. *)
Lemma newResource_eval config s (rr : result (Resource sdk)) (w : World sdk) :
  let attrs :=
    omap (λ kv : string * option string, pair kv.1 <$> kv.2)
      [("service.name", ServiceName config);
       ("service.instance.id", InstanceID config);
       ("env", Env config);
       ("git.commit", GitCommit config);
       ("github.url", GitHubURL config)] in
  resource_New sdk attrs (world sdk s) = (rr, w) →
  newResource sdk config s
  = (match rr with
     | Ok res => Ok res
     | Err e => Err (wrapError "failed to create resource: " e)
     end,
     mkState sdk w (textMapPropagator sdk s) (tracerProvider sdk s)
       (loggerProvider sdk s) (shutdownFuncs sdk s)
       (calls sdk s ++ [CallResourceNew sdk attrs])%list).
Proof.
  unfold newResource, bind, sdkCall, ret, append.
  destruct (ServiceName config), (InstanceID config), (Env config),
    (GitCommit config), (GitHubURL config); simpl; intros ->; by destruct rr.
Qed.

Lemma newTraceProvider_eval_err config res headers s (e : error) (w : World sdk) :
  otlptracehttp_New sdk (default "api.iudex.ai" (BaseURL config)) headers
    (world sdk s) = (Err e, w) →
  newTraceProvider sdk config res headers s
  = (Err e,
     mkState sdk w (textMapPropagator sdk s) (tracerProvider sdk s)
       (loggerProvider sdk s) (shutdownFuncs sdk s)
       (calls sdk s ++ [CallTraceExporterNew sdk
                          (default "api.iudex.ai" (BaseURL config)) headers])%list).
Proof.
  unfold newTraceProvider, bind, sdkCall, ret, append.
  destruct (BaseURL config); simpl; by intros ->.
Qed.

(** X17: when the resource is built and a key is present but the trace
    exporter cannot be built, set-up returns the exporter's error as the
    SDK gave it (joined, not wrapped), never tries the log exporter, and
    registers neither provider. *)
Theorem setupOTelSDK_trace_exporter_failure env config s
    (res : Resource sdk) (headers : HeaderMap) (e : error) (w1 w2 : World sdk) :
  let used := applyDefaults env config in
  let attrs :=
    omap (λ kv : string * option string, pair kv.1 <$> kv.2)
      [("service.name", ServiceName used);
       ("service.instance.id", InstanceID used);
       ("env", Env used);
       ("git.commit", GitCommit used);
       ("github.url", GitHubURL used)] in
  let url := default "api.iudex.ai" (BaseURL used) in
  resource_New sdk attrs (world sdk s) = (Ok res, w1) →
  newHeaders used = Ok headers →
  otlptracehttp_New sdk url headers w1 = (Err e, w2) →
  let r := setupOTelSDK sdk env config s in
  fst r = Some (joinError [e])
  ∧ calls sdk (snd r)
    = (calls sdk s ++ [CallSetTextMapPropagator sdk newPropagator;
                       CallResourceNew sdk attrs;
                       CallTraceExporterNew sdk url headers])%list
  ∧ world sdk (snd r) = w2
  ∧ tracerProvider sdk (snd r) = tracerProvider sdk s
  ∧ loggerProvider sdk (snd r) = loggerProvider sdk s.
Proof.
  intros used attrs url Hres Hhd Htr r. subst r attrs url used.
  rewrite setupOTelSDK_unfold. cbv zeta.
  rewrite (newResource_eval (applyDefaults env config) (setupStart sdk s) _ _ Hres).
  rewrite Hhd.
  match goal with
  | |- context [newTraceProvider sdk ?c ?r ?h ?st] =>
      rewrite (newTraceProvider_eval_err c r h st e w2 Htr)
  end.
  rewrite handleErr_unfold. simpl. unfold append.
  repeat apply conj; try reflexivity.
  by rewrite <- !app_assoc.
Qed.

(** The calls [setupOTelSDK] makes after [resource.New]: none when the
    resource or the headers fail; otherwise the trace exporter first, then
    either nothing more, or the tracer provider, its registration and the
    log exporter followed by clean-ups, or the rest of a successful run.
    Every exporter gets the defaulted endpoint and the header map. *)
Lemma setupOTelSDK_calls_after_resource env config s :
  let used := applyDefaults env config in
  let url := default "api.iudex.ai" (BaseURL used) in
  ∃ rest,
    calls sdk (snd (setupOTelSDK sdk env config s))
    = (calls sdk (snd (newResource sdk used (setupStart sdk s))) ++ rest)%list
    ∧ match fst (newResource sdk used (setupStart sdk s)), newHeaders used with
      | Ok res, Ok h =>
          ∃ tail, rest = CallTraceExporterNew sdk url h :: tail
            ∧ (tail = []
               ∨ (∃ te tp fns,
                    tail = ([CallNewTracerProvider sdk te time_Second res;
                             CallSetTracerProvider sdk tp;
                             CallLogExporterNew sdk url h]
                            ++ map CallShutdown fns)%list)
               ∨ (∃ te tp le p lp,
                    tail = [CallNewTracerProvider sdk te time_Second res;
                            CallSetTracerProvider sdk tp;
                            CallLogExporterNew sdk url h;
                            CallNewBatchProcessor sdk le;
                            CallNewLoggerProvider sdk res p;
                            CallSetLoggerProvider sdk lp]))
      | _, _ => rest = []
      end.
Proof.
  intros used url. subst used url.
  rewrite setupOTelSDK_unfold. cbv zeta.
  pose proof (newResource_Frame sdk (applyDefaults env config) (setupStart sdk s))
    as [_ _ _ Hf1 _].
  destruct (newResource sdk _ _) as [[res|err] s1] eqn:Hres; simpl in Hf1 |- *.
  2: { destruct (handleErr_globals err s1) as [-> _]. rewrite Hf1. by exists []. }
  destruct (newHeaders _) as [h|err] eqn:Hhd.
  2: { destruct (handleErr_globals err s1) as [-> _]. rewrite Hf1. by exists []. }
  destruct (newTraceProvider sdk _ _ _ _) as [[tp|err] s2] eqn:Htp.
  2: { destruct (handleErr_globals err s2) as [-> _].
       pose proof (newTraceProvider_calls _ _ _ _ _ _ Htp) as C2. simpl in C2.
       apply newTraceProvider_Frame_eq in Htp as [_ _ _ Hf2 _].
       rewrite Hf2, Hf1, C2. simpl. eexists. split; [by rewrite app_nil_r|].
       eexists. split; [reflexivity|]. by left. }
  destruct (newTraceProvider_calls _ _ _ _ _ _ Htp) as [te C2].
  destruct (newLoggerProvider sdk _ _ _ _) as [[lp|err] s3] eqn:Hlp.
  2: { destruct (handleErr_globals err s3) as [-> _].
       pose proof (newLoggerProvider_calls _ _ _ _ _ _ Hlp) as C3. simpl in C3.
       unfold append in C3. rewrite C3, C2.
       eexists. split; [by rewrite <- !app_assoc|]. simpl.
       eexists. split; [reflexivity|]. right. left.
       by exists te, tp, (shutdownFuncs sdk s3). }
  destruct (newLoggerProvider_calls _ _ _ _ _ _ Hlp) as (le & p & C3).
  simpl in C3 |- *. unfold append in C3 |- *. rewrite C3, C2.
  eexists. split; [by rewrite <- !app_assoc|]. simpl.
  eexists. split; [reflexivity|]. right. right.
  by exists te, tp, le, p, lp.
Qed.

(** C2: each of [ServiceName], [InstanceID], [Env], [GitCommit] and
    [BaseURL] that [setupOTelSDK] works with is the caller's field when
    non-nil, else the environment variable when set, else the hard-coded
    default, which exists for [BaseURL], [ServiceName] and [Env] only;
    [getDefaultConfig] has no hard-coded [APIKey] or [PublicAPIKey]
    either.  These are the values set-up uses: every run calls
    [resource.New] with the attributes made of them, every exporter it
    builds gets that [BaseURL] as endpoint, and once the resource is built
    and the headers exist the trace exporter is asked for with it. *)
Theorem setupOTelSDK_defaults_first_non_nil env config s :
  let used := applyDefaults env config in
  let r := setupOTelSDK sdk env config s in
  let attrs :=
    omap (λ kv : string * option string, pair kv.1 <$> kv.2)
      [("service.name", ServiceName used);
       ("service.instance.id", InstanceID used);
       ("env", Env used);
       ("git.commit", GitCommit used);
       ("github.url", GitHubURL used)] in
  (ServiceName used
   = firstNonNil (ServiceName config) (env !! "SERVICE_NAME") (Some "default-service")
   ∧ InstanceID used = firstNonNil (InstanceID config) (env !! "INSTANCE_ID") None
   ∧ Env used = firstNonNil (Env config) (env !! "ENVIRONMENT") (Some "development")
   ∧ GitCommit used = firstNonNil (GitCommit config) (env !! "GIT_COMMIT") None
   ∧ BaseURL used
     = firstNonNil (BaseURL config) (env !! "BASE_URL") (Some "api.iudex.ai")
   ∧ APIKey (getDefaultConfig env) = firstNonNil None (env !! "API_KEY") None
   ∧ PublicAPIKey (getDefaultConfig env)
     = firstNonNil None (env !! "PUBLIC_API_KEY") None)
  ∧ ∃ url rest,
      BaseURL used = Some url
      ∧ calls sdk (snd r)
        = (calls sdk s ++ CallSetTextMapPropagator sdk newPropagator
                          :: CallResourceNew sdk attrs :: rest)%list
      ∧ (∀ u h, CallTraceExporterNew sdk u h ∈ rest
                ∨ CallLogExporterNew sdk u h ∈ rest → u = url)
      ∧ (∀ res h, fst (resource_New sdk attrs (world sdk s)) = Ok res →
                  newHeaders used = Ok h →
                  head rest = Some (CallTraceExporterNew sdk url h)).
Proof.
  intros used r attrs. subst r attrs. split.
  { subst used. rewrite applyDefaults_fields. simpl.
    unfold getEnv, firstNonNil, stringPtr.
    repeat apply conj; by repeat case_match. }
  destruct (applyDefaults_BaseURL_some env config) as [url Hurl]. fold used in Hurl.
  destruct (setupOTelSDK_calls_after_resource env config s) as (rest & Hc & Hshape).
  cbv zeta in Hc, Hshape. fold used in Hc, Hshape.
  rewrite newResource_calls in Hc. simpl in Hc. unfold append in Hc.
  rewrite Hurl in Hshape. simpl in Hshape.
  exists url, rest. split; [done|]. split; [by rewrite Hc, <- !app_assoc|].
  pose proof (newResource_result used (setupStart sdk s)) as Hr.
  cbv zeta in Hr. change (world sdk (setupStart sdk s)) with (world sdk s) in Hr.
  split.
  - intros u h' Hin.
    destruct (fst (newResource sdk used (setupStart sdk s))) as [res|err];
      [|subst rest; destruct Hin as [Hin|Hin]; by apply elem_of_nil in Hin].
    destruct (newHeaders used) as [h|err];
      [|subst rest; destruct Hin as [Hin|Hin]; by apply elem_of_nil in Hin].
    destruct Hshape as (tail & -> & [-> | [(te & tp & fns & ->)
                                          | (te & tp & le & p & lp & ->)]]).
    + destruct Hin as [Hin|Hin];
        repeat (apply elem_of_cons in Hin as [Hin|Hin]; [congruence|]);
        by apply elem_of_nil in Hin.
    + destruct Hin as [Hin|Hin];
        repeat (apply elem_of_cons in Hin as [Hin|Hin]; [congruence|]);
        apply list_elem_of_fmap in Hin as (fn & Hfn & _); discriminate.
    + destruct Hin as [Hin|Hin];
        repeat (apply elem_of_cons in Hin as [Hin|Hin]; [congruence|]);
        by apply elem_of_nil in Hin.
  - intros res h Hres Hhd. rewrite Hres in Hr. rewrite Hr, Hhd in Hshape.
    by destruct Hshape as (tail & -> & _).
Qed.

(** X12: the error of a failed set-up is a joined error whose first
    element is the error of the constructor that failed; a second
    element follows exactly when a tracer provider had been started and
    its [Shutdown] returned an error, and it is the join of that error. *)
Theorem setupOTelSDK_error_shape env config s :
  let r := setupOTelSDK sdk env config s in
  is_Some (fst r) →
  ∃ inErr started sf,
    ConstructorFails sdk env config s inErr started sf
    ∧ (started = [] ∧ fst r = Some (joinError [inErr])
       ∨ ∃ tp, started = [TracerProviderShutdown tp]
               ∧ fst r
                 = match fst (TracerProvider_Shutdown sdk tp (world sdk sf)) with
                   | None => Some (joinError [inErr])
                   | Some e => Some (joinError [inErr; joinError [e]])
                   end).
Proof.
  intros r H. subst r.
  destruct (setupOTelSDK_error_inv _ _ _ _ H) as (inErr & started & sf & Hf).
  exists inErr, started, sf. split; [exact Hf|].
  rewrite (ConstructorFails_handleErr _ _ _ _ _ _ _ Hf), handleErr_unfold.
  rewrite (ConstructorFails_started _ _ _ _ _ _ _ Hf). simpl.
  destruct (ConstructorFails_globals _ _ _ _ _ _ Hf) as (_ & _ & Ht).
  destruct started as [|fn rest]; [by left|].
  destruct Ht as (tp & -> & [= ->] & _).
  right. exists tp. split; [done|].
  rewrite runShutdownFuncs_tracer.
  by destruct (TracerProvider_Shutdown sdk tp (world sdk sf)) as [[e|] w].
Qed.

Context (br : Bridges sdk).

(** X16: after a successful set-up, [newSlogLogger] and [newZapLogger]
    build their loggers on the logger provider that set-up registered,
    the one whose [Shutdown] the returned closure will call; they change
    no state. *)
Theorem loggers_use_registered_provider env config s (name : string) :
  let r := setupOTelSDK sdk env config s in
  fst r = None →
  ∃ lp,
    LoggerProviderShutdown lp ∈ shutdownFuncs sdk (snd r)
    ∧ newSlogLogger sdk br name (snd r)
      = (otelslog_NewLogger sdk br name (Some lp), snd r)
    ∧ newZapLogger sdk br name (snd r)
      = (zap_New sdk br (otelzap_NewCore sdk br name (Some lp)), snd r).
Proof.
  intros r H. subst r.
  destruct (setupOTelSDK_success_fields _ _ _ H) as (tp & lp & _ & Hl & Hf & _).
  exists lp. rewrite Hf.
  unfold newSlogLogger, newZapLogger, getLoggerProvider, bind, ret. rewrite Hl.
  split; [set_solver | done].
Qed.

End MoreSetupFacts.

(** ** The further properties at concrete inputs *)

Lemma setupOTelSDK_success_registers_witness :
  let sdk := exampleSDK true true in
  let r := setupOTelSDK sdk ∅ publicKeyConfig (freshState sdk 0) in
  fst r = None
  ∧ ∃ tp lp,
      tracerProvider sdk (snd r) = Some tp
      ∧ loggerProvider sdk (snd r) = Some lp
      ∧ shutdownFuncs sdk (snd r)
        = [TracerProviderShutdown tp; LoggerProviderShutdown lp]
      ∧ textMapPropagator sdk (snd r) = Some newPropagator.
Proof.
  intros sdk r. split; [reflexivity|].
  apply (setupOTelSDK_success_registers sdk ∅ publicKeyConfig (freshState sdk 0)).
  reflexivity.
Defined.

Lemma setupOTelSDK_success_call_sequence_witness :
  let sdk := exampleSDK true true in
  let s := freshState sdk 0 in
  let r := setupOTelSDK sdk ∅ publicKeyConfig s in
  ∃ url headers attrs res te tp le p lp,
    BaseURL (applyDefaults ∅ publicKeyConfig) = Some url
    ∧ newHeaders (applyDefaults ∅ publicKeyConfig) = Ok headers
    ∧ calls sdk (snd r)
      = (calls sdk s ++
         [CallSetTextMapPropagator sdk newPropagator;
          CallResourceNew sdk attrs;
          CallTraceExporterNew sdk url headers;
          CallNewTracerProvider sdk te 1000000000 res;
          CallSetTracerProvider sdk tp;
          CallLogExporterNew sdk url headers;
          CallNewBatchProcessor sdk le;
          CallNewLoggerProvider sdk res p;
          CallSetLoggerProvider sdk lp])%list.
Proof.
  intros sdk s r.
  apply (setupOTelSDK_success_call_sequence sdk ∅ publicKeyConfig s).
  reflexivity.
Defined.

Lemma setupOTelSDK_failure_globals_witness :
  let sdk := exampleSDK false true in
  let s := freshState sdk 0 in
  let r := setupOTelSDK sdk ∅ publicKeyConfig s in
  loggerProvider sdk (snd r) = loggerProvider sdk s
  ∧ shutdownFuncs sdk (snd r) = []
  ∧ shutdown sdk (snd r) = (None, snd r)
  ∧ textMapPropagator sdk (snd r) = Some newPropagator.
Proof.
  intros sdk s r.
  apply (setupOTelSDK_failure_globals sdk ∅ publicKeyConfig s).
  eexists. reflexivity.
Defined.

Lemma setupOTelSDK_failure_tracer_global_witness :
  let sdk := exampleSDK false true in
  let r := setupOTelSDK sdk ∅ publicKeyConfig (freshState sdk 0) in
  ∃ tp, tracerProvider sdk (snd r) = Some tp
        ∧ last (calls sdk (snd r)) = Some (CallShutdown (TracerProviderShutdown tp)).
Proof.
  intros sdk r.
  assert (∃ inErr tp sf,
            ConstructorFails sdk ∅ publicKeyConfig (freshState sdk 0) inErr
              [TracerProviderShutdown tp] sf)
    as (inErr & tp & sf & Hfail).
  { do 3 eexists. eapply LoggerProviderFails; reflexivity. }
  destruct (setupOTelSDK_failure_tracer_global sdk _ _ _ _ _ _ Hfail)
    as (tp' & Heq & Ht & Hl).
  exists tp'. split; [exact Ht|]. rewrite <- Heq. exact Hl.
Defined.

(** No key is configured either, yet the resource error is the one
    reported. *)
Lemma setupOTelSDK_resource_failure_witness :
  let sdk := noResourceSDK in
  let s := freshState sdk 0 in
  let r := setupOTelSDK sdk ∅ zeroConfig s in
  fst r = Some (joinError [wrapError "failed to create resource: "
                             (errorString "resource: detector failed")])
  ∧ calls sdk (snd r)
    = [CallSetTextMapPropagator sdk newPropagator;
       CallResourceNew sdk [("service.name", "default-service");
                            ("env", "development")]]
  ∧ tracerProvider sdk (snd r) = None
  ∧ loggerProvider sdk (snd r) = None.
Proof.
  intros sdk s r.
  exact (setupOTelSDK_resource_failure sdk ∅ zeroConfig s
           (errorString "resource: detector failed") 1 eq_refl).
Defined.

Lemma setupOTelSDK_missing_keys_no_exporter_witness :
  let sdk := exampleSDK true true in
  let s := freshState sdk 0 in
  ∃ attrs,
    calls sdk (snd (setupOTelSDK sdk {["SERVICE_NAME" := "billing"]} zeroConfig s))
    = (calls sdk s ++ [CallSetTextMapPropagator sdk newPropagator;
                       CallResourceNew sdk attrs])%list.
Proof.
  intros sdk s.
  apply (setupOTelSDK_missing_keys_no_exporter sdk _ zeroConfig s); reflexivity.
Defined.

Lemma setupOTelSDK_then_shutdown_witness :
  let sdk := exampleSDK true false in
  let r := setupOTelSDK sdk ∅ bothKeysConfig (freshState sdk 0) in
  ∃ tp lp,
    let s' := snd (shutdown sdk (snd r)) in
    calls sdk s'
    = (calls sdk (snd r) ++ [CallShutdown (TracerProviderShutdown tp);
                             CallShutdown (LoggerProviderShutdown lp)])%list
    ∧ shutdownFuncs sdk s' = []
    ∧ tracerProvider sdk s' = Some tp
    ∧ loggerProvider sdk s' = Some lp.
Proof.
  intros sdk r.
  apply (setupOTelSDK_then_shutdown sdk ∅ bothKeysConfig (freshState sdk 0)).
  reflexivity.
Defined.

Lemma loggers_use_registered_provider_witness :
  let sdk := exampleSDK true true in
  let br := exampleBridges sdk in
  let r := setupOTelSDK sdk ∅ publicKeyConfig (freshState sdk 0) in
  ∃ lp,
    LoggerProviderShutdown lp ∈ shutdownFuncs sdk (snd r)
    ∧ newSlogLogger sdk br "main" (snd r)
      = (otelslog_NewLogger sdk br "main" (Some lp), snd r)
    ∧ newZapLogger sdk br "main" (snd r)
      = (zap_New sdk br (otelzap_NewCore sdk br "main" (Some lp)), snd r).
Proof.
  intros sdk br r.
  apply (loggers_use_registered_provider sdk br ∅ publicKeyConfig
           (freshState sdk 0) "main").
  reflexivity.
Defined.

Lemma setupOTelSDK_trace_exporter_failure_witness :
  let sdk := noTraceExporterSDK in
  let s := freshState sdk 0 in
  let r := setupOTelSDK sdk ∅ publicKeyConfig s in
  fst r = Some (joinError [errorString "trace exporter: invalid endpoint"])
  ∧ calls sdk (snd r)
    = [CallSetTextMapPropagator sdk newPropagator;
       CallResourceNew sdk [("service.name", "default-service");
                            ("env", "development")];
       CallTraceExporterNew sdk "api.iudex.ai"
         {["x-write-only-api-key" := "pk_live"]}]
  ∧ world sdk (snd r) = 2
  ∧ tracerProvider sdk (snd r) = None
  ∧ loggerProvider sdk (snd r) = None.
Proof.
  intros sdk s r.
  exact (setupOTelSDK_trace_exporter_failure sdk ∅ publicKeyConfig s
           [("service.name", "default-service"); ("env", "development")]
           {["x-write-only-api-key" := "pk_live"]}
           (errorString "trace exporter: invalid endpoint") 1 2
           eq_refl eq_refl eq_refl).
Defined.

(** [SERVICE_NAME] and [BASE_URL] come from the environment, [Env] from
    the hard-coded default: these are what reaches [resource.New] and the
    trace exporter. *)
Lemma setupOTelSDK_defaults_first_non_nil_witness :
  let sdk := exampleSDK true true in
  let env : Environ := {["SERVICE_NAME" := "billing"; "BASE_URL" := "collector.local"]} in
  let s := freshState sdk 0 in
  let r := setupOTelSDK sdk env publicKeyConfig s in
  ∃ rest,
    calls sdk (snd r)
    = (calls sdk s ++
       CallSetTextMapPropagator sdk newPropagator
       :: CallResourceNew sdk [("service.name", "billing"); ("env", "development")]
       :: rest)%list
    ∧ head rest
      = Some (CallTraceExporterNew sdk "collector.local"
                {["x-write-only-api-key" := "pk_live"]}).
Proof.
  intros sdk env s r.
  destruct (setupOTelSDK_defaults_first_non_nil sdk env publicKeyConfig s)
    as (_ & url & rest & Hurl & Hc & _ & Hhead).
  injection Hurl as <-.
  exists rest. split; [exact Hc|].
  exact (Hhead [("service.name", "billing"); ("env", "development")]
           {["x-write-only-api-key" := "pk_live"]} eq_refl eq_refl).
Defined.

Lemma setupOTelSDK_error_shape_witness :
  let sdk := exampleSDK false false in
  let s := freshState sdk 0 in
  let r := setupOTelSDK sdk ∅ publicKeyConfig s in
  ∃ inErr started sf,
    ConstructorFails sdk ∅ publicKeyConfig s inErr started sf
    ∧ (started = [] ∧ fst r = Some (joinError [inErr])
       ∨ ∃ tp, started = [TracerProviderShutdown tp]
               ∧ fst r
                 = match fst (TracerProvider_Shutdown sdk tp (world sdk sf)) with
                   | None => Some (joinError [inErr])
                   | Some e => Some (joinError [inErr; joinError [e]])
                   end).
Proof.
  intros sdk s r.
  apply (setupOTelSDK_error_shape sdk ∅ publicKeyConfig s).
  eexists. reflexivity.
Defined.
